(** * Text and image extraction from presentation packages

    A shallow embedding of [backend/scripts/extract_pptx_with_images.py] and
    [backend/scripts/extract_pptx.py], and the properties of the extraction
    result that the specification states about them.

    Python values are modelled as follows.  A [str] is a [string], one
    [ascii] per character, so the texts of the model are those over the
    code points below 256; [len] is [String.length]; an [int] that counts
    something is a [nat], rendered in decimal by [pretty]; [bytes] is a
    [list byte].  The dictionaries the scripts return are association lists
    in insertion order ([value]), so that the presence of a key can be
    stated.  Exceptions and the two kinds of side effect of the scripts (the
    file system and [sys.stderr]) are threaded through a state-and-exception
    monad [M]; what the scripts call outside the repository (python-pptx and
    the operating system) is the interface [Platform].  Paths are joined as
    on POSIX. *)

From stdpp Require Import base strings list gmap pretty sorting.
From Stdlib Require Import ZArith Strings.Ascii Strings.Byte Lia.

#[local] Set Warnings "-register-all".

Local Open Scope Z_scope.
Local Open Scope nat_scope.

(** ** Python built-ins used by the scripts *)

Module Py.

(** The line feed, [chr(10)]. *)
Definition nl : string := String (Ascii.ascii_of_nat 10) EmptyString.

(** [str.isspace] on one character, for the code points below 256: the
    controls 9-13 and 28-31, the space, NEL (133) and the no-break
    space (160). *)
Definition isspace (c : ascii) : bool :=
  let n := Ascii.nat_of_ascii c in
  ((9 <=? n) && (n <=? 13)) || ((28 <=? n) && (n <=? 32))
  || (n =? 133) || (n =? 160).

Fixpoint lstrip (s : string) : string :=
  match s with
  | EmptyString => EmptyString
  | String c s' => if isspace c then lstrip s' else s
  end.

Fixpoint rstrip (s : string) : string :=
  match s with
  | EmptyString => EmptyString
  | String c s' =>
      match rstrip s' with
      | EmptyString => if isspace c then EmptyString else String c EmptyString
      | r => String c r
      end
  end.

(** [s.strip()] *)
Definition strip (s : string) : string := rstrip (lstrip s).

(** Truth value of a [str]: false exactly for the empty string. *)
Definition truthy (s : string) : bool :=
  match s with EmptyString => false | String _ _ => true end.

(** Truth value of an optional argument ([None] or a [str]). *)
Definition truthy_opt (o : option string) : bool :=
  match o with None => false | Some s => truthy s end.

(** [x or ''] for [x] being [None] or a [str]. *)
Definition or_empty (o : option string) : string :=
  match o with
  | Some s => if truthy s then s else EmptyString
  | None => EmptyString
  end.

(** [sep.join(parts)] *)
Definition join (sep : string) (parts : list string) : string :=
  String.concat sep parts.

(** [c in s] for a one-character [c]. *)
Fixpoint contains (c : ascii) (s : string) : bool :=
  match s with
  | EmptyString => false
  | String d s' => if Ascii.eqb c d then true else contains c s'
  end.

(** [s.split(sep)] for a one-character separator. *)
Fixpoint split (sep : ascii) (s : string) : list string :=
  match s with
  | EmptyString => [EmptyString]
  | String c s' =>
      if Ascii.eqb c sep then EmptyString :: split sep s'
      else match split sep s' with
           | h :: t => String c h :: t
           | [] => [String c EmptyString]
           end
  end.

(** [l[-1]] of a list of strings (never empty where the scripts use it). *)
Definition last_item (l : list string) : string := List.last l EmptyString.

(** [s[:n]] *)
Fixpoint slice_to (n : nat) (s : string) : string :=
  match n, s with
  | S n', String c s' => String c (slice_to n' s')
  | _, _ => EmptyString
  end.

(** [needle in hay] for strings. *)
Fixpoint occurs_in (needle hay : string) : bool :=
  String.prefix needle hay
  || match hay with
     | EmptyString => false
     | String _ hay' => occurs_in needle hay'
     end.

(** *** [base64.b64encode] (RFC 4648, standard alphabet, with padding) *)

Definition b64_alphabet : string :=
  "ABCDEFGHIJKLMNOPQRSTUVWXYZabcdefghijklmnopqrstuvwxyz0123456789+/".

Definition b64_digit (n : N) : ascii :=
  match String.get (N.to_nat (N.land n 63)) b64_alphabet with
  | Some c => c
  | None => "="%char
  end.

Definition b64_pad : ascii := "="%char.

Fixpoint b64encode (bs : list byte) : string :=
  match bs with
  | [] => EmptyString
  | [a] =>
      let n := N.shiftl (Byte.to_N a) 16 in
      String (b64_digit (N.shiftr n 18)) (String (b64_digit (N.shiftr n 12))
        (String b64_pad (String b64_pad EmptyString)))
  | [a; b] =>
      let n := N.lor (N.shiftl (Byte.to_N a) 16) (N.shiftl (Byte.to_N b) 8) in
      String (b64_digit (N.shiftr n 18)) (String (b64_digit (N.shiftr n 12))
        (String (b64_digit (N.shiftr n 6)) (String b64_pad EmptyString)))
  | a :: b :: c :: rest =>
      let n := N.lor (N.lor (N.shiftl (Byte.to_N a) 16)
                            (N.shiftl (Byte.to_N b) 8)) (Byte.to_N c) in
      String (b64_digit (N.shiftr n 18)) (String (b64_digit (N.shiftr n 12))
        (String (b64_digit (N.shiftr n 6)) (String (b64_digit n)
          (b64encode rest))))
  end.

(** *** [os.path.join] with two arguments (posixpath) *)

Definition startswith_sep (s : string) : bool :=
  match s with String "/" _ => true | _ => false end.

Fixpoint endswith_sep (s : string) : bool :=
  match s with
  | EmptyString => false
  | String c EmptyString => Ascii.eqb c "/"
  | String _ s' => endswith_sep s'
  end.

Definition os_path_join (a b : string) : string :=
  if startswith_sep b then b
  else if negb (truthy a) || endswith_sep a then a +:+ b
  else a +:+ "/" +:+ b.

End Py.

(** ** The presentation object model

    The objects python-pptx hands to the scripts, with the attributes the
    scripts read. *)

(** [pptx.enum.shapes.MSO_SHAPE_TYPE]; the scripts compare a shape's type
    with [PICTURE], [TABLE] and [GROUP] only. *)
Inductive MSO_SHAPE_TYPE :=
  | AUTO_SHAPE | FREEFORM | GROUP | LINE | MEDIA | PICTURE | PLACEHOLDER
  | TABLE | TEXT_BOX | CHART.

#[global] Instance MSO_SHAPE_TYPE_eq_dec : EqDecision MSO_SHAPE_TYPE.
Proof. solve_decision. Defined.

(** Exceptions, by the classes the handlers of the scripts tell apart:
    [FileNotFoundError], and every other subclass of [Exception].  The
    argument is [str(e)]. *)
Inductive exn :=
  | FileNotFoundError (msg : string)
  | OtherException (msg : string).

Definition str_exn (e : exn) : string :=
  match e with FileNotFoundError msg | OtherException msg => msg end.

(** The result of evaluating an expression that may raise. *)
Inductive outcome (A : Type) :=
  | Return (a : A)
  | Raise (e : exn).
Arguments Return {A} a.
Arguments Raise {A} e.

(** [shape.image] of a picture: the bytes and the declared MIME type. *)
Record Image := mkImage {
  blob : list byte;
  content_type : string
}.

(** A shape.  [shape_text] is [None] when the object has no attribute
    [text] ([hasattr(shape, "text")] is false); [shape_table] holds
    [shape.table.rows], each row as the text of its cells; [shape_shapes]
    are the sub-shapes of a group; [shape_image] is what evaluating
    [shape.image] gives, which raises for a picture without embedded
    bytes.  The scripts read the last three only under the matching
    [shape_type].  The type is a value: the model covers the shapes whose
    type python-pptx can tell.  For a shape it does not recognise,
    evaluating [shape.shape_type] raises [NotImplementedError], outside any
    [try] of the scripts but the outermost; such shapes have no counterpart
    here, and no property below speaks of them. *)
Inductive Shape := mkShape {
  shape_text : option string;
  shape_type : MSO_SHAPE_TYPE;
  shape_table : list (list string);
  shape_shapes : list Shape;
  shape_image : outcome Image
}.

(** A slide: [slide.shapes], [slide.has_notes_slide] and
    [slide.notes_slide.notes_text_frame.text].  The notes text is a value:
    the model covers the slides whose notes slide, if they have one, has a
    text frame.  Without one, [notes_text_frame] is [None] and reading its
    [text] raises [AttributeError]; such slides have no counterpart
    here. *)
Record Slide := mkSlide {
  slide_shapes : list Shape;
  has_notes_slide : bool;
  notes_text : string
}.

(** [datetime.datetime], as [prs.core_properties] gives it. *)
Record datetime := mkDatetime {
  year : nat; month : nat; day : nat;
  hour : nat; minute : nat; second : nat; microsecond : nat
}.

Record CoreProperties := mkCoreProperties {
  title : option string;
  author : option string;
  subject : option string;
  created : option datetime;
  modified : option datetime
}.

(** The presentation object [prs]. *)
Record Prs := mkPrs {
  core_properties : CoreProperties;
  prs_slides : list Slide;
  slide_width : option Z;
  slide_height : option Z
}.

(** [s.zfill(width)] for a string of digits. *)
Definition zfill (width : nat) (s : string) : string :=
  String.string_of_list_ascii (replicate (width - String.length s) "0"%char)
  +:+ s.

(** [str(d)] of a [datetime]: ISO format with a space as separator, the
    microseconds only when they are not zero. *)
Definition str_datetime (d : datetime) : string :=
  zfill 4 (pretty (year d)) +:+ "-" +:+ zfill 2 (pretty (month d)) +:+ "-"
  +:+ zfill 2 (pretty (day d)) +:+ " " +:+ zfill 2 (pretty (hour d)) +:+ ":"
  +:+ zfill 2 (pretty (minute d)) +:+ ":" +:+ zfill 2 (pretty (second d))
  +:+ (if microsecond d =? 0 then "" else "." +:+ zfill 6 (pretty (microsecond d))).

(** ** Returned values

    What the scripts return and [json.dumps] prints: [None], booleans,
    integers, strings, lists, and dictionaries in insertion order. *)
Inductive value :=
  | VNone
  | VBool (b : bool)
  | VInt (n : Z)
  | VStr (s : string)
  | VList (items : list value)
  | VDict (entries : list (string * value)).

Fixpoint assoc (key : string) (entries : list (string * value)) : option value :=
  match entries with
  | [] => None
  | (k, v) :: rest => if decide (k = key) then Some v else assoc key rest
  end.

(** [d.get(key)]: the value under [key], [None] when [d] has no such key
    (or is no dictionary). *)
Definition dict_get (key : string) (d : value) : option value :=
  match d with VDict entries => assoc key entries | _ => None end.

(** [list(d.keys())] *)
Definition dict_keys (d : value) : list string :=
  match d with VDict entries => entries.*1 | _ => [] end.

Definition opt_int (o : option Z) : value :=
  match o with Some n => VInt n | None => VNone end.

(** The dictionary [extract_text_from_slide] builds, with the key
    [images] that [extract_pptx_data] adds to it when it extracts images
    ([slide_images] is [None] while the key is absent). *)
Record SlideData := mkSlideData {
  slide_number : nat;
  content : string;
  text_count : nat;
  slide_images : option (list value)
}.

Definition slide_dict (s : SlideData) : value :=
  VDict ([("slide_number", VInt (Z.of_nat (slide_number s)));
          ("content", VStr (content s));
          ("text_count", VInt (Z.of_nat (text_count s)))]
         ++ match slide_images s with
            | Some images => [("images", VList images)]
            | None => []
            end).

(** The dictionary [extract_images_from_slide] appends for one picture. *)
Record ImageInfo := mkImageInfo {
  image_filename : string;
  image_path : string;
  image_content_type : string;
  image_size : nat;
  image_base64 : string
}.

Definition image_dict (i : ImageInfo) : value :=
  VDict [("filename", VStr (image_filename i));
         ("path", VStr (image_path i));
         ("content_type", VStr (image_content_type i));
         ("size", VInt (Z.of_nat (image_size i)));
         ("base64", VStr (image_base64 i))].

(** ** The platform and the effects of the scripts *)

(** What the scripts call outside the repository, over an abstract state
    [FS] of the file system: python-pptx's [Presentation(path)],
    [os.path.exists], [os.makedirs(path, exist_ok=True)], and
    [with open(path, 'wb') as f: f.write(data)].  The last two return the
    new file system and the exception raised, if any (a failed write may
    still leave a file behind).  [os_path_isfile] is [os.path.isfile]; the
    scripts do not call it, the properties below name it. *)
Class Platform (FS : Type) := {
  Presentation : FS → string → outcome Prs;
  os_path_exists : FS → string → bool;
  os_path_isfile : FS → string → bool;
  os_makedirs : FS → string → FS * option exn;
  open_wb_write : FS → string → list byte → FS * option exn
}.

(** The state a run acts on: the file system and the lines printed to
    [sys.stderr] so far. *)
Record World (FS : Type) := mkWorld {
  w_fs : FS;
  w_stderr : list string
}.
Arguments mkWorld {FS} w_fs w_stderr.
Arguments w_fs {FS} w.
Arguments w_stderr {FS} w.

(** Computations that read and change the world and may raise. *)
Definition M (FS A : Type) : Type := World FS → World FS * outcome A.

#[global] Instance M_ret {FS} : MRet (M FS) :=
  λ A a w, (w, Return a).

#[global] Instance M_bind {FS} : MBind (M FS) :=
  λ A B f m w,
    match m w with
    | (w', Return a) => f a w'
    | (w', Raise e) => (w', Raise e)
    end.

(** [try: body  except Exception as e: handler(e)] *)
Definition try_except {FS A} (body : M FS A) (handler : exn → M FS A) : M FS A :=
  λ w,
    match body w with
    | (w', Raise e) => handler e w'
    | r => r
    end.

Definition of_option_exn (r : option exn) : outcome unit :=
  match r with Some e => Raise e | None => Return () end.

Section Effects.
Context {FS : Type} `{!Platform FS}.

(** An expression that may raise, evaluated. *)
Definition eval {A} (o : outcome A) : M FS A := λ w, (w, o).

(** [Presentation(file_path)] *)
Definition load_presentation (file_path : string) : M FS Prs :=
  λ w, (w, Presentation (w_fs w) file_path).

Definition path_exists (path : string) : M FS bool :=
  λ w, (w, Return (os_path_exists (w_fs w) path)).

Definition makedirs (path : string) : M FS unit :=
  λ w, let '(fs, r) := os_makedirs (w_fs w) path in
       (mkWorld fs (w_stderr w), of_option_exn r).

Definition write_file (path : string) (data : list byte) : M FS unit :=
  λ w, let '(fs, r) := open_wb_write (w_fs w) path data in
       (mkWorld fs (w_stderr w), of_option_exn r).

(** [print(line, file=sys.stderr)] *)
Definition print_stderr (line : string) : M FS unit :=
  λ w, (mkWorld (w_fs w) (w_stderr w ++ [line]), Return ()).
End Effects.

(** ** [extract_pptx_with_images.py] *)

Module extract_pptx_with_images.
Section Script.
Context {FS : Type} `{!Platform FS}.

(** The body of the [try] in [extract_images_from_slide], for one picture
    shape: read the image, derive the file name, save the bytes, and build
    the record with the truncated base64 text. *)
Definition extract_image (shape : Shape) (slide_number shape_idx : nat)
    (output_dir : string) : M FS ImageInfo :=
  image ← eval (shape_image shape);
  let image_bytes := blob image in
  let content_type := content_type image in
  let ext := if Py.contains "/" content_type
             then Py.last_item (Py.split "/" content_type) else "png" in
  let filename := "slide_" +:+ pretty slide_number +:+ "_img_"
                  +:+ pretty (shape_idx + 1) +:+ "." +:+ ext in
  let filepath := Py.os_path_join output_dir filename in
  write_file filepath image_bytes;;
  let image_base64 := Py.b64encode image_bytes in
  mret {| image_filename := filename;
          image_path := filepath;
          image_content_type := content_type;
          image_size := length image_bytes;
          image_base64 := "data:" +:+ content_type +:+ ";base64,"
                          +:+ Py.slice_to 100 image_base64 +:+ "..." |}.

Definition warning (slide_number shape_idx : nat) (e : exn) : string :=
  "Warning: Failed to extract image from slide " +:+ pretty slide_number
  +:+ ", shape " +:+ pretty shape_idx +:+ ": " +:+ str_exn e.

(** The loop [for shape_idx, shape in enumerate(slide.shapes)], from index
    [shape_idx] on, with the list [images] built so far. *)
Fixpoint images_loop (slide_number : nat) (output_dir : string)
    (shape_idx : nat) (shapes : list Shape) (images : list ImageInfo)
    : M FS (list ImageInfo) :=
  match shapes with
  | [] => mret images
  | shape :: rest =>
      images ←
        (if decide (shape_type shape = PICTURE) then
           try_except
             (info ← extract_image shape slide_number shape_idx output_dir;
              mret (images ++ [info]))
             (λ e, print_stderr (warning slide_number shape_idx e);;
                   mret images)
         else mret images);
      images_loop slide_number output_dir (S shape_idx) rest images
  end.

Definition extract_images_from_slide (slide : Slide) (slide_number : nat)
    (output_dir : string) : M FS (list ImageInfo) :=
  images_loop slide_number output_dir 0 (slide_shapes slide) [].

(** [if hasattr(shape, "text") and shape.text:] with its body, on the list
    [texts]; the same statement handles the sub-shapes of a group. *)
Definition append_shape_text (texts : list string) (shape : Shape) : list string :=
  match shape_text shape with
  | Some t =>
      if Py.truthy t then
        let text := Py.strip t in
        if Py.truthy text then texts ++ [text] else texts
      else texts
  | None => texts
  end.

(** The loop over [row.cells], building [row_texts]. *)
Definition append_cell_text (row_texts : list string) (cell_text : string)
    : list string :=
  let text := Py.strip cell_text in
  if Py.truthy text then row_texts ++ [text] else row_texts.

(** The loop over [shape.table.rows]. *)
Definition append_row (texts : list string) (row : list string) : list string :=
  let row_texts := fold_left append_cell_text row [] in
  match row_texts with
  | [] => texts
  | _ => texts ++ [Py.join " | " row_texts]
  end.

(** The body of [for shape in slide.shapes]: three independent [if]s. *)
Definition visit_shape (texts : list string) (shape : Shape) : list string :=
  let texts := append_shape_text texts shape in
  let texts := if decide (shape_type shape = TABLE)
               then fold_left append_row (shape_table shape) texts
               else texts in
  let texts := if decide (shape_type shape = GROUP)
               then fold_left append_shape_text (shape_shapes shape) texts
               else texts in
  texts.

(** The list [texts] at the end of [extract_text_from_slide]. *)
Definition slide_texts (slide : Slide) : list string :=
  let texts := fold_left visit_shape (slide_shapes slide) [] in
  if has_notes_slide slide then
    let notes_text := Py.strip (notes_text slide) in
    if Py.truthy notes_text then texts ++ ["Speaker Notes: " +:+ notes_text]
    else texts
  else texts.

Definition extract_text_from_slide (slide : Slide) (slide_number : nat)
    : SlideData :=
  let texts := slide_texts slide in
  {| slide_number := slide_number;
     content := Py.join Py.nl texts;
     text_count := length texts;
     slide_images := None |}.

(** [slide_data['images'] = images] *)
Definition set_images (slide_data : SlideData) (images : list ImageInfo)
    : SlideData :=
  {| slide_number := slide_number slide_data;
     content := content slide_data;
     text_count := text_count slide_data;
     slide_images := Some (image_dict <$> images) |}.

Definition metadata_of (prs : Prs) : value :=
  let cp := core_properties prs in
  VDict [("title", VStr (Py.or_empty (title cp)));
         ("author", VStr (Py.or_empty (author cp)));
         ("subject", VStr (Py.or_empty (subject cp)));
         ("created", VStr (from_option str_datetime "" (created cp)));
         ("modified", VStr (from_option str_datetime "" (modified cp)));
         ("slide_count", VInt (Z.of_nat (length (prs_slides prs))));
         ("slide_width", opt_int (slide_width prs));
         ("slide_height", opt_int (slide_height prs))].

(** The loop [for idx, slide in enumerate(prs.slides, start=1)], from
    number [idx] on, with [slides] and [all_images] as built so far. *)
Fixpoint slides_loop (output_dir : option string) (idx : nat)
    (remaining : list Slide) (slides : list SlideData)
    (all_images : list ImageInfo) : M FS (list SlideData * list ImageInfo) :=
  match remaining with
  | [] => mret (slides, all_images)
  | slide :: rest =>
      let slide_data := extract_text_from_slide slide idx in
      '(slide_data, all_images) ←
        match output_dir with
        | Some dir =>
            if Py.truthy dir then
              images ← extract_images_from_slide slide idx dir;
              mret (set_images slide_data images, all_images ++ images)
            else mret (slide_data, all_images)
        | None => mret (slide_data, all_images)
        end;
      slides_loop output_dir (S idx) rest (slides ++ [slide_data]) all_images
  end.

(** The loop that builds [full_text_parts]. *)
Definition append_part (full_text_parts : list string) (s : SlideData)
    : list string :=
  if Py.truthy (content s)
  then full_text_parts
       ++ ["=== Slide " +:+ pretty (slide_number s) +:+ " ===" +:+ Py.nl
           +:+ content s]
  else full_text_parts.

Definition failure (message : string) : value :=
  VDict [("success", VBool false); ("error", VStr message)].

(** The end of the [try] block of [extract_pptx_data]: the full text with
    its slide markers, and the dictionary returned on success. *)
Definition assemble (prs : Prs) (metadata : value) (slides : list SlideData)
    (all_images : list ImageInfo) : value :=
  let full_text_parts := fold_left append_part slides [] in
  let full_text := Py.join (Py.nl +:+ Py.nl) full_text_parts in
  VDict
    [("success", VBool true);
     ("metadata", metadata);
     ("slides", VList (slide_dict <$> slides));
     ("full_text", VStr full_text);
     ("total_slides", VInt (Z.of_nat (length (prs_slides prs))));
     ("slides_with_text",
        VInt (Z.of_nat (length (List.filter (λ s, Py.truthy (content s)) slides))));
     ("total_characters", VInt (Z.of_nat (String.length full_text)));
     ("total_images", VInt (Z.of_nat (length all_images)));
     ("images", VList (image_dict <$> all_images))].

(** [if output_dir and not os.path.exists(output_dir):
       os.makedirs(output_dir, exist_ok=True)] *)
Definition ensure_output_dir (output_dir : option string) : M FS unit :=
  match output_dir with
  | Some dir =>
      if Py.truthy dir then
        there ← path_exists dir;
        if negb there then makedirs dir else mret ()
      else mret ()
  | None => mret ()
  end.

Definition extract_pptx_data (file_path : string) (output_dir : option string)
    : M FS value :=
  try_except
    (prs ← load_presentation file_path;
     ensure_output_dir output_dir;;
     let metadata := metadata_of prs in
     '(slides, all_images) ← slides_loop output_dir 1 (prs_slides prs) [] [];
     mret (assemble prs metadata slides all_images))
    (λ e, match e with
          | FileNotFoundError _ =>
              mret (failure ("File not found: " +:+ file_path))
          | OtherException msg =>
              mret (failure ("Error extracting PPTX: " +:+ msg))
          end).

End Script.
End extract_pptx_with_images.

(** ** [extract_pptx.py] *)

Module extract_pptx.
Section Script.
Context {FS : Type} `{!Platform FS}.

Definition append_shape_text (texts : list string) (shape : Shape) : list string :=
  match shape_text shape with
  | Some t =>
      if Py.truthy t then
        let text := Py.strip t in
        if Py.truthy text then texts ++ [text] else texts
      else texts
  | None => texts
  end.

Definition append_cell_text (row_texts : list string) (cell_text : string)
    : list string :=
  let text := Py.strip cell_text in
  if Py.truthy text then row_texts ++ [text] else row_texts.

Definition append_row (texts : list string) (row : list string) : list string :=
  let row_texts := fold_left append_cell_text row [] in
  match row_texts with
  | [] => texts
  | _ => texts ++ [Py.join " | " row_texts]
  end.

Definition visit_shape (texts : list string) (shape : Shape) : list string :=
  let texts := append_shape_text texts shape in
  let texts := if decide (shape_type shape = TABLE)
               then fold_left append_row (shape_table shape) texts
               else texts in
  let texts := if decide (shape_type shape = GROUP)
               then fold_left append_shape_text (shape_shapes shape) texts
               else texts in
  texts.

Definition slide_texts (slide : Slide) : list string :=
  let texts := fold_left visit_shape (slide_shapes slide) [] in
  if has_notes_slide slide then
    let notes_text := Py.strip (notes_text slide) in
    if Py.truthy notes_text then texts ++ ["Speaker Notes: " +:+ notes_text]
    else texts
  else texts.

Definition extract_text_from_slide (slide : Slide) (slide_number : nat)
    : SlideData :=
  let texts := slide_texts slide in
  {| slide_number := slide_number;
     content := Py.join Py.nl texts;
     text_count := length texts;
     slide_images := None |}.

Definition metadata_of (prs : Prs) : value :=
  let cp := core_properties prs in
  VDict [("title", VStr (Py.or_empty (title cp)));
         ("author", VStr (Py.or_empty (author cp)));
         ("subject", VStr (Py.or_empty (subject cp)));
         ("created", VStr (from_option str_datetime "" (created cp)));
         ("modified", VStr (from_option str_datetime "" (modified cp)));
         ("slide_count", VInt (Z.of_nat (length (prs_slides prs))));
         ("slide_width", opt_int (slide_width prs));
         ("slide_height", opt_int (slide_height prs))].

(** The loop [for idx, slide in enumerate(prs.slides, start=1)]. *)
Fixpoint slides_loop (idx : nat) (remaining : list Slide)
    (slides : list SlideData) : list SlideData :=
  match remaining with
  | [] => slides
  | slide :: rest =>
      let slide_data := extract_text_from_slide slide idx in
      slides_loop (S idx) rest (slides ++ [slide_data])
  end.

Definition append_part (full_text_parts : list string) (s : SlideData)
    : list string :=
  if Py.truthy (content s)
  then full_text_parts
       ++ ["=== Slide " +:+ pretty (slide_number s) +:+ " ===" +:+ Py.nl
           +:+ content s]
  else full_text_parts.

Definition failure (message : string) : value :=
  VDict [("success", VBool false); ("error", VStr message)].

(** The end of the [try] block of [extract_text_from_pptx]. *)
Definition assemble (prs : Prs) (metadata : value) (slides : list SlideData)
    : value :=
  let full_text_parts := fold_left append_part slides [] in
  let full_text := Py.join (Py.nl +:+ Py.nl) full_text_parts in
  VDict
    [("success", VBool true);
     ("metadata", metadata);
     ("slides", VList (slide_dict <$> slides));
     ("full_text", VStr full_text);
     ("total_slides", VInt (Z.of_nat (length (prs_slides prs))));
     ("slides_with_text",
        VInt (Z.of_nat (length (List.filter (λ s, Py.truthy (content s)) slides))));
     ("total_characters", VInt (Z.of_nat (String.length full_text)))].

Definition extract_text_from_pptx (file_path : string) : M FS value :=
  try_except
    (prs ← load_presentation file_path;
     let metadata := metadata_of prs in
     let slides := slides_loop 1 (prs_slides prs) [] in
     mret (assemble prs metadata slides))
    (λ e, match e with
          | FileNotFoundError _ =>
              mret (failure ("File not found: " +:+ file_path))
          | OtherException msg =>
              mret (failure ("Error extracting PPTX: " +:+ msg))
          end).

End Script.
End extract_pptx.

(** ** An in-memory platform

    A file system as a finite map from paths to nodes, on which the scripts
    can be run.  Directories are entries of their own; a file is written
    under a path whose directory part is an existing directory (or
    empty). *)

Inductive node :=
  | Directory
  | PackageFile (prs : Prs)
  | DataFile (data : list byte).

Abbreviation MemFS := (gmap string node).

(** [os.path.dirname] *)
Definition dirname (path : string) : string :=
  Py.join "/" (removelast (Py.split "/" path)).

Definition quoted (path : string) : string := "'" +:+ path +:+ "'".

Definition dquote : string := String "034"%char "".

(** python-pptx's [Presentation] on this file system.  The loader is not
    part of the sources; this is how the library behaves.  A path that is
    neither a directory nor a zip archive, a path that does not exist
    included, raises the library's own [PackageNotFoundError] with the text
    [Package not found at '<path>']; a directory is searched for the part
    [[Content_Types].xml], and [KeyError] is raised when it has none.  Both
    are plain subclasses of [Exception]: the loader does not raise
    [FileNotFoundError]. *)
Definition mem_Presentation (fs : MemFS) (path : string) : outcome Prs :=
  match fs !! path with
  | Some (PackageFile prs) => Return prs
  | Some Directory =>
      Raise (OtherException
               (dquote +:+ "no member '/[Content_Types].xml' in package"
                +:+ dquote))
  | Some (DataFile _) | None =>
      Raise (OtherException ("Package not found at " +:+ quoted path))
  end.

Definition mem_exists (fs : MemFS) (path : string) : bool :=
  bool_decide (is_Some (fs !! path)).

Definition mem_isfile (fs : MemFS) (path : string) : bool :=
  match fs !! path with
  | Some (PackageFile _) | Some (DataFile _) => true
  | _ => false
  end.

(** The paths [os.makedirs] goes through, outermost first: every prefix of
    [path] that ends before a separator, and [path] itself. *)
Definition ancestors (path : string) : list string :=
  let parts := Py.split "/" path in
  filter (λ p, p ≠ "")
         ((λ n, Py.join "/" (take n parts)) <$> seq 1 (length parts)).

(** [os.mkdir] on each of [paths] in turn, an existing directory being
    left alone.  A regular file in the way stops it: [FileExistsError] when
    it is the last path, [NotADirectoryError] for the path below it
    otherwise.  Both are subclasses of [OSError] other than
    [FileNotFoundError]. *)
Fixpoint mem_mkdirs (fs : MemFS) (paths : list string) : MemFS * option exn :=
  match paths with
  | [] => (fs, None)
  | p :: rest =>
      match fs !! p with
      | None => mem_mkdirs (<[p := Directory]> fs) rest
      | Some Directory => mem_mkdirs fs rest
      | Some _ =>
          (fs, Some (OtherException
                       match rest with
                       | [] => "[Errno 17] File exists: " +:+ quoted p
                       | below :: _ =>
                           "[Errno 20] Not a directory: " +:+ quoted below
                       end))
      end
  end.

(** [os.makedirs(path, exist_ok=True)]: the missing ancestors are created
    on the way. *)
Definition mem_makedirs (fs : MemFS) (path : string) : MemFS * option exn :=
  mem_mkdirs fs (ancestors path).

Definition mem_write (fs : MemFS) (path : string) (data : list byte)
    : MemFS * option exn :=
  let dir := dirname path in
  match (if Py.truthy dir then fs !! dir else Some Directory) with
  | Some Directory =>
      match fs !! path with
      | Some Directory =>
          (fs, Some (OtherException
                       ("[Errno 21] Is a directory: " +:+ quoted path)))
      | _ => (<[path := DataFile data]> fs, None)
      end
  | Some _ =>
      (fs, Some (OtherException ("[Errno 20] Not a directory: " +:+ quoted path)))
  | None =>
      (fs, Some (FileNotFoundError
                   ("[Errno 2] No such file or directory: " +:+ quoted path)))
  end.

#[global] Instance mem_platform : Platform MemFS := {|
  Presentation := mem_Presentation;
  os_path_exists := mem_exists;
  os_path_isfile := mem_isfile;
  os_makedirs := mem_makedirs;
  open_wb_write := mem_write
|}.

(** *** The deck of the scenario in the specification *)

Definition text_shape (ty : MSO_SHAPE_TYPE) (t : string) : Shape :=
  mkShape (Some t) ty [] [] (Raise (OtherException "no attribute image")).

Definition table_shape (rows : list (list string)) : Shape :=
  mkShape None TABLE rows [] (Raise (OtherException "no attribute image")).

Definition group_shape (children : list Shape) : Shape :=
  mkShape None GROUP [] children (Raise (OtherException "no attribute image")).

Definition picture_shape (data : list byte) (mime : string) : Shape :=
  mkShape None PICTURE [] [] (Return (mkImage data mime)).

Definition linked_picture_shape : Shape :=
  mkShape None PICTURE [] [] (Raise (OtherException "no embedded image")).

Definition no_properties : CoreProperties :=
  mkCoreProperties None None None None None.

Definition scenario_slide1 : Slide :=
  mkSlide [text_shape PLACEHOLDER "Intro";
           table_shape [["A"; "B"]; ["C"; "D"]]] false "".

Definition scenario_slide2 : Slide :=
  mkSlide [] true "Remember X".

Definition scenario_deck : Prs :=
  mkPrs no_properties [scenario_slide1; scenario_slide2]
        (Some 9144000%Z) (Some 6858000%Z).

Definition scenario_fs : MemFS := {[ "deck.pptx" := PackageFile scenario_deck ]}.

Definition start (fs : MemFS) : World MemFS := mkWorld fs [].

(** *** Further decks for the examples *)

Definition png_small : list byte := [x4d; x61; x6e].

Definition jpeg_large : list byte := replicate 90 xff.

(** A slide with a text box, a small picture, a linked picture (whose
    bytes cannot be read) and a large picture. *)
Definition gallery_slide : Slide :=
  mkSlide [text_shape TEXT_BOX "Photos";
           picture_shape png_small "image/png";
           linked_picture_shape;
           picture_shape jpeg_large "image/jpeg"] false "".

Definition gallery_deck : Prs :=
  mkPrs no_properties [gallery_slide; scenario_slide2] None None.

Definition gallery_fs : MemFS := {[ "gallery.pptx" := PackageFile gallery_deck ]}.

(** A group that holds a text box, a group with a text box of its own,
    and a text box with blanks only. *)
Definition nested_group : Shape :=
  group_shape [text_shape TEXT_BOX " Child ";
               group_shape [text_shape TEXT_BOX "Deep"];
               text_shape TEXT_BOX "  "].

Definition scenario_metadata : value :=
  VDict [("title", VStr ""); ("author", VStr ""); ("subject", VStr "");
         ("created", VStr ""); ("modified", VStr "");
         ("slide_count", VInt 2);
         ("slide_width", VInt 9144000); ("slide_height", VInt 6858000)].

Definition scenario_content1 : string :=
  "Intro" +:+ Py.nl +:+ "A | B" +:+ Py.nl +:+ "C | D".

Definition scenario_full_text : string :=
  "=== Slide 1 ===" +:+ Py.nl +:+ "Intro" +:+ Py.nl +:+ "A | B" +:+ Py.nl
  +:+ "C | D" +:+ Py.nl +:+ Py.nl +:+ "=== Slide 2 ===" +:+ Py.nl
  +:+ "Speaker Notes: Remember X".

Definition scenario_slides : list SlideData :=
  [mkSlideData 1 scenario_content1 3 None;
   mkSlideData 2 "Speaker Notes: Remember X" 1 None].

(** What [extract_text_from_pptx] returns for the deck of the scenario. *)
Definition scenario_text_result : value :=
  VDict [("success", VBool true);
         ("metadata", scenario_metadata);
         ("slides", VList (slide_dict <$> scenario_slides));
         ("full_text", VStr scenario_full_text);
         ("total_slides", VInt 2);
         ("slides_with_text", VInt 2);
         ("total_characters", VInt 76)].

(** What [extract_pptx_data] returns for it without an output directory. *)
Definition scenario_result : value :=
  VDict [("success", VBool true);
         ("metadata", scenario_metadata);
         ("slides", VList (slide_dict <$> scenario_slides));
         ("full_text", VStr scenario_full_text);
         ("total_slides", VInt 2);
         ("slides_with_text", VInt 2);
         ("total_characters", VInt 76);
         ("total_images", VInt 0);
         ("images", VList [])].

(** ** What the specification says, in its own words

    Definitions that follow the text of the specification; the properties
    below compare the scripts with them. *)

(** Section 4.2, a shape with text: "if it exposes non-empty text after
    trimming, append as one fragment". *)
Definition fragment (text : option string) : option string :=
  match text with
  | Some t => if decide (Py.strip t = "") then None else Some (Py.strip t)
  | None => None
  end.

(** Section 4.2, a table row: "trim every cell's text, keep non-empty
    cells, join kept cells with [" | "]; skip rows with zero non-empty
    cells". *)
Definition row_fragment (row : list string) : option string :=
  let kept := filter (λ cell, cell ≠ "") (Py.strip <$> row) in
  if decide (kept = []) then None else Some (Py.join " | " kept).

(** Section 4.2, the notes: "one final fragment of the form
    [Speaker Notes: <text>]". *)
Definition notes_fragment (slide : Slide) : option string :=
  if has_notes_slide slide
  then if decide (Py.strip (notes_text slide) = "") then None
       else Some ("Speaker Notes: " +:+ Py.strip (notes_text slide))
  else None.

(** The fragments of one shape: its own text, the rows of a table, the
    texts of the immediate children of a group. *)
Definition shape_fragments (shape : Shape) : list string :=
  option_list (fragment (shape_text shape))
  ++ (if decide (shape_type shape = TABLE)
      then omap row_fragment (shape_table shape) else [])
  ++ (if decide (shape_type shape = GROUP)
      then omap (λ child, fragment (shape_text child)) (shape_shapes shape)
      else []).

(** Section 4.4: "a marker line [=== Slide <n> ===] followed by its
    content". *)
Definition block (s : SlideData) : string :=
  "=== Slide " +:+ pretty (slide_number s) +:+ " ===" +:+ Py.nl +:+ content s.

(** Section 4.4: the blocks of the slides with non-empty content, "joined
    by exactly one blank line". *)
Definition spec_full_text (slides : list SlideData) : string :=
  Py.join (Py.nl +:+ Py.nl) (block <$> filter (λ s, content s ≠ "") slides).

(** Two shapes that agree on everything the text extraction can reach at
    depth one: their own text, type and table, and the texts of their
    immediate children.  Nothing is said of the children's children. *)
Definition same_to_depth_one (a b : Shape) : Prop :=
  shape_text a = shape_text b ∧ shape_type a = shape_type b ∧
  shape_table a = shape_table b ∧
  shape_text <$> shape_shapes a = shape_text <$> shape_shapes b.

(** The record of slide number [n] once the loop of [extract_pptx_data]
    is done with it: the text record, with the key [images] holding the
    images [images] extracted from that slide when an output directory was
    given. *)
Definition slide_record (output_dir : option string) (n : nat) (slide : Slide)
    (images : list ImageInfo) : SlideData :=
  let slide_data := extract_pptx_with_images.extract_text_from_slide slide n in
  if Py.truthy_opt output_dir
  then extract_pptx_with_images.set_images slide_data images
  else slide_data.

(** The records of the slides [remaining], numbered from [idx], given the
    images extracted from each. *)
Fixpoint slide_records (output_dir : option string) (idx : nat)
    (remaining : list Slide) (per_slide : list (list ImageInfo))
    : list SlideData :=
  match remaining, per_slide with
  | slide :: remaining', images :: per_slide' =>
      slide_record output_dir idx slide images
      :: slide_records output_dir (S idx) remaining' per_slide'
  | _, _ => []
  end.

(** The shapes of a slide the image extraction looks at. *)
Definition is_picture (shape : Shape) : Prop := shape_type shape = PICTURE.

#[global] Instance is_picture_dec shape : Decision (is_picture shape).
Proof. unfold is_picture. apply _. Defined.

(** ** Further definitions for the properties of the scripts *)

(** A decimal digit. *)
Definition is_digit (c : ascii) : bool :=
  let n := Ascii.nat_of_ascii c in (48 <=? n) && (n <=? 57).

Fixpoint all_digits (s : string) : bool :=
  match s with
  | EmptyString => true
  | String c s' => is_digit c && all_digits s'
  end.

(** The extension [extract_images_from_slide] derives from a content
    type: [content_type.split('/')[-1] if '/' in content_type else 'png']. *)
Definition extension_of (content_type : string) : string :=
  if Py.contains "/" content_type
  then Py.last_item (Py.split "/" content_type) else "png".

(** The file name it gives the picture at index [shape_idx] of slide
    [slide_number]. *)
Definition image_name (slide_number shape_idx : nat) (ext : string) : string :=
  "slide_" +:+ pretty slide_number +:+ "_img_" +:+ pretty (shape_idx + 1)
  +:+ "." +:+ ext.

(** The record it appends for that picture. *)
Definition record_of (output_dir : string) (slide_number shape_idx : nat)
    (image : Image) : ImageInfo :=
  let filename :=
    image_name slide_number shape_idx (extension_of (content_type image)) in
  {| image_filename := filename;
     image_path := Py.os_path_join output_dir filename;
     image_content_type := content_type image;
     image_size := length (blob image);
     image_base64 := "data:" +:+ content_type image +:+ ";base64,"
                     +:+ Py.slice_to 100 (Py.b64encode (blob image))
                     +:+ "..." |}.

(** The picture shapes of a deck, slide by slide. *)
Definition deck_pictures (slides : list Slide) : list Shape :=
  filter is_picture (slides ≫= slide_shapes).

(** *** The command lines of the two scripts

    The [if __name__ == '__main__':] blocks.  [argv] is [sys.argv], the
    script name first.  A run of a block gives the world it leaves, what it
    hands to [print(json.dumps(...))] ([None] when the process dies of an
    uncaught exception before printing) and the exit status of the
    process: 1 after [sys.exit(1)] or an uncaught exception, 0 otherwise. *)

Record Process := mkProcess {
  printed : option value;
  exit_status : nat
}.

Section CommandLine.
Context {FS : Type} `{!Platform FS}.

Definition usage_with_images : string :=
  "Usage: python extract_pptx_with_images.py <file_path> [output_dir]".

Definition main_with_images (argv : list string) (w : World FS)
    : World FS * Process :=
  if length argv <? 2 then
    (w, mkProcess (Some (extract_pptx_with_images.failure usage_with_images)) 1)
  else
    let file_path := nth 1 argv "" in
    let output_dir := if 2 <? length argv then Some (nth 2 argv "") else None in
    match extract_pptx_with_images.extract_pptx_data file_path output_dir w with
    | (w', Return result) => (w', mkProcess (Some result) 0)
    | (w', Raise _) => (w', mkProcess None 1)
    end.

Definition usage_text_only : string :=
  "Usage: python extract_pptx.py <file_path>".

Definition main_text_only (argv : list string) (w : World FS)
    : World FS * Process :=
  if negb (length argv =? 2) then
    (w, mkProcess (Some (extract_pptx.failure usage_text_only)) 1)
  else
    let file_path := nth 1 argv "" in
    match extract_pptx.extract_text_from_pptx file_path w with
    | (w', Return result) => (w', mkProcess (Some result) 0)
    | (w', Raise _) => (w', mkProcess None 1)
    end.

End CommandLine.

(** *** A platform that cannot create directories

    The in-memory platform, except that [os.makedirs] always fails with
    [FileNotFoundError] (as it does for a path under a missing drive or
    mount). *)
Definition no_mkdir_platform : Platform MemFS := {|
  Presentation := mem_Presentation;
  os_path_exists := mem_exists;
  os_path_isfile := mem_isfile;
  os_makedirs := λ fs path,
    (fs, Some (FileNotFoundError
                 ("[Errno 2] No such file or directory: " +:+ quoted path)));
  open_wb_write := mem_write
|}.

(** *** The image extraction of one slide, case by case

    Section 4.3 in its own words, as the runs it allows over the shapes of
    a slide from index [idx] on: a shape that is no picture is passed over;
    a picture whose bytes are read and saved gives a record; a picture whose
    bytes cannot be read, or cannot be saved, gives a warning that names the
    slide number and the shape index, and no record; in each case the run
    goes on with the remaining shapes. *)




(** Two slides, and two decks, that differ at most in the images of their
    shapes (and below the children of their groups). *)
Definition same_slide_apart_from_images (a b : Slide) : Prop :=
  Forall2 same_to_depth_one (slide_shapes a) (slide_shapes b) ∧
  has_notes_slide a = has_notes_slide b ∧ notes_text a = notes_text b.



(** The gallery deck with every picture linked: none can be read. *)
Definition linked_gallery_slide : Slide :=
  mkSlide [text_shape TEXT_BOX "Photos";
           linked_picture_shape;
           linked_picture_shape;
           linked_picture_shape] false "".

Definition linked_gallery_deck : Prs :=
  mkPrs no_properties [linked_gallery_slide; scenario_slide2] None None.

(** A file system with the gallery deck, its linked variant, and a regular
    file where an output directory might be expected. *)
Definition galleries_fs : MemFS :=
  {[ "gallery.pptx" := PackageFile gallery_deck;
     "linked.pptx" := PackageFile linked_gallery_deck;
     "taken" := DataFile [] ]}.

(** *** A platform that keeps a record of the files it is asked to write

    Any platform, with a second component of the state that lists, in
    order, the path and the bytes of every call of
    [open(path, 'wb').write(data)], whether the call succeeded or not.
    Everything else is handed to the platform underneath. *)

Definition Logged (FS : Type) : Type := FS * list (string * list byte).

Definition logging {FS : Type} `{!Platform FS} : Platform (Logged FS) := {|
  Presentation := λ s path, Presentation s.1 path;
  os_path_exists := λ s path, os_path_exists s.1 path;
  os_path_isfile := λ s path, os_path_isfile s.1 path;
  os_makedirs := λ s path,
    let '(fs, r) := os_makedirs s.1 path in ((fs, s.2), r);
  open_wb_write := λ s path data,
    let '(fs, r) := open_wb_write s.1 path data in
    ((fs, s.2 ++ [(path, data)]), r)
|}.

(** The files a world records as written, and the world without the
    record. *)
Definition written {FS : Type} (w : World (Logged FS))
    : list (string * list byte) :=
  (w_fs w).2.

Definition erase {FS : Type} (w : World (Logged FS)) : World FS :=
  mkWorld (w_fs w).1 (w_stderr w).

(** Where [os.path.join] puts a file name under the directory [dir]. *)
Definition under (dir name : string) : string :=
  (if negb (Py.truthy dir) || Py.endswith_sep dir then dir else dir +:+ "/")
  +:+ name.

(** The file the image extraction writes for the picture at index [a.1.2]
    of slide [a.1.1], whose image is [a.2]. *)
Definition file_of (dir : string) (a : nat * nat * Image)
    : string * list byte :=
  (image_path (record_of dir a.1.1 a.1.2 a.2), blob a.2).

(** A computation over the platform that keeps the record does what the
    computation over the platform underneath does. *)
Definition simulates {FS A : Type} (m_log : M (Logged FS) A) (m : M FS A)
    : Prop :=
  ∀ w, m (erase w) = (erase (m_log w).1, (m_log w).2).

(** The world a run starts in, with an empty record. *)
Definition start_logged (fs : MemFS) : World (Logged MemFS) :=
  mkWorld (fs, []) [].

(** *** Runs for the examples *)

(** What a run returned, [None] when it raised. *)
Definition result_of {FS : Type} (run : World FS * outcome value) : value :=
  match run.2 with Return r => r | Raise _ => VNone end.

(** A slide with a title, a group with a group inside, a text box after
    the group, and notes. *)
Definition group_slide : Slide :=
  mkSlide [text_shape TEXT_BOX "Title"; nested_group;
           text_shape TEXT_BOX "After"] true " Notes ".



(** A deck whose only picture declares a content type with several
    separators. *)
Definition odd_type_deck : Prs :=
  mkPrs no_properties
        [mkSlide [picture_shape png_small "image/../../etc/x"] false ""]
        None None.

Definition odd_type_fs : MemFS := {[ "odd.pptx" := PackageFile odd_type_deck ]}.

(** A run on the in-memory platform with the record of written files. *)
Definition logged_run (path : string) (output_dir : option string)
    (fs : MemFS) : World (Logged MemFS) * outcome value :=
  @extract_pptx_with_images.extract_pptx_data (Logged MemFS) logging
    path output_dir (start_logged fs).

(** * Properties *)

(** ** Strings and bytes *)

Lemma truthy_true s : Py.truthy s = true ↔ s ≠ "".
Proof. destruct s; simpl; split; congruence. Qed.

Lemma truthy_false s : Py.truthy s = false ↔ s = "".
Proof. destruct s; simpl; split; congruence. Qed.

Lemma slice_to_length n s :
  String.length (Py.slice_to n s) = n `min` String.length s.
Proof.
  revert s; induction n as [|n IH]; intros [|c s]; simpl; auto.
Qed.

Lemma slice_to_all n s : Py.slice_to n s = s ↔ String.length s ≤ n.
Proof.
  revert s; induction n as [|n IH]; intros [|c s]; simpl.
  - split; auto.
  - split; [discriminate | lia].
  - split; auto with lia.
  - rewrite <- Nat.succ_le_mono, <- IH. split; congruence.
Qed.

Lemma div3_step n : (S (S (S n)) + 2) / 3 = S ((n + 2) / 3).
Proof.
  replace (S (S (S n)) + 2) with ((n + 2) + 1 * 3) by lia.
  rewrite Nat.div_add by lia. lia.
Qed.

Lemma b64encode_length_1 a : String.length (Py.b64encode [a]) = 4.
Proof. reflexivity. Qed.

Lemma b64encode_length_2 a b : String.length (Py.b64encode [a; b]) = 4.
Proof. reflexivity. Qed.

Lemma b64encode_length_3 a b c rest :
  String.length (Py.b64encode (a :: b :: c :: rest))
  = 4 + String.length (Py.b64encode rest).
Proof. reflexivity. Qed.

(** The encoded text has four characters for every three bytes, the last
    group padded. *)
Lemma b64encode_length bs :
  String.length (Py.b64encode bs) = 4 * ((length bs + 2) / 3).
Proof.
  cut (∀ n bs, length bs < n →
         String.length (Py.b64encode bs) = 4 * ((length bs + 2) / 3)).
  { intros H. apply (H (S (length bs))). lia. }
  clear bs. intros n; induction n as [|n IH]; intros bs Hn; [lia|].
  destruct bs as [|a [|b [|c rest]]].
  - reflexivity.
  - rewrite b64encode_length_1. reflexivity.
  - rewrite b64encode_length_2. reflexivity.
  - rewrite b64encode_length_3, IH by (cbn [length] in Hn; lia).
    cbn [length]. rewrite div3_step. lia.
Qed.

(** ** Text of a slide *)

Section TextProperties.
Import extract_pptx_with_images.

Lemma append_shape_text_fragment texts shape :
  append_shape_text texts shape
  = texts ++ option_list (fragment (shape_text shape)).
Proof.
  unfold append_shape_text, fragment.
  destruct (shape_text shape) as [t|]; simpl; [|by rewrite app_nil_r].
  destruct (Py.truthy t) eqn:Ht.
  - destruct (Py.truthy (Py.strip t)) eqn:Hs.
    + apply truthy_true in Hs. by rewrite decide_False.
    + apply truthy_false in Hs. rewrite decide_True by done.
      by rewrite app_nil_r.
  - apply truthy_false in Ht. subst t. simpl. by rewrite app_nil_r.
Qed.

Lemma fold_append_cell_text row acc :
  fold_left append_cell_text row acc
  = acc ++ filter (λ cell, cell ≠ "") (Py.strip <$> row).
Proof.
  revert acc; induction row as [|cell row IH]; intros acc; simpl.
  - by rewrite app_nil_r.
  - rewrite IH. unfold append_cell_text. rewrite filter_cons.
    destruct (Py.truthy (Py.strip cell)) eqn:Hs.
    + apply truthy_true in Hs. rewrite decide_True by done.
      by rewrite <- app_assoc.
    + apply truthy_false in Hs. by rewrite decide_False by (by intros []).
Qed.

Lemma append_row_fragment texts row :
  append_row texts row = texts ++ option_list (row_fragment row).
Proof.
  unfold append_row, row_fragment. rewrite fold_append_cell_text. simpl.
  destruct (filter _ _) as [|c kept]; simpl.
  - by rewrite app_nil_r.
  - done.
Qed.

(** A loop that appends to its accumulator what each element gives. *)
Lemma fold_left_appending {A B} (step : list B → A → list B) (f : A → option B) :
  (∀ acc x, step acc x = acc ++ option_list (f x)) →
  ∀ l acc, fold_left step l acc = acc ++ omap f l.
Proof.
  intros Hstep l; induction l as [|x l IH]; intros acc; simpl.
  - by rewrite app_nil_r.
  - rewrite IH, Hstep, <- app_assoc. by destruct (f x).
Qed.

Lemma visit_shape_fragments texts shape :
  visit_shape texts shape = texts ++ shape_fragments shape.
Proof.
  unfold visit_shape, shape_fragments.
  rewrite append_shape_text_fragment.
  repeat case_decide;
    rewrite ?(fold_left_appending _ _ append_row_fragment),
            ?(fold_left_appending _ (λ child, fragment (shape_text child))
                (λ acc x, append_shape_text_fragment acc x)),
            ?app_nil_r, <- ?app_assoc; done.
Qed.

Lemma fold_visit_shape shapes texts :
  fold_left visit_shape shapes texts
  = texts ++ concat (shape_fragments <$> shapes).
Proof.
  revert texts; induction shapes as [|shape shapes IH]; intros texts; simpl.
  - by rewrite app_nil_r.
  - by rewrite IH, visit_shape_fragments, <- app_assoc.
Qed.

(** The fragments of a slide are those of its shapes in declaration order,
    then the notes. *)
Lemma slide_texts_fragments slide :
  slide_texts slide
  = concat (shape_fragments <$> slide_shapes slide)
    ++ option_list (notes_fragment slide).
Proof.
  unfold slide_texts, notes_fragment. rewrite fold_visit_shape. simpl.
  destruct (has_notes_slide slide); [|by rewrite app_nil_r].
  destruct (Py.truthy _) eqn:Hs.
  - apply truthy_true in Hs. by rewrite decide_False.
  - apply truthy_false in Hs. rewrite decide_True by done. by rewrite app_nil_r.
Qed.

End TextProperties.

(** ** Assembly of the full text *)

Lemma filter_truthy_content (l : list SlideData) :
  List.filter (λ s, Py.truthy (content s)) l = filter (λ s, content s ≠ "") l.
Proof.
  induction l as [|s l IH]; [done|]. simpl. rewrite filter_cons, IH.
  destruct (Py.truthy (content s)) eqn:Hs.
  - apply truthy_true in Hs. by rewrite decide_True.
  - apply truthy_false in Hs. by rewrite decide_False by (by intros []).
Qed.

Lemma parts_are_blocks (l : list SlideData) :
  fold_left extract_pptx_with_images.append_part l []
  = block <$> filter (λ s, content s ≠ "") l.
Proof.
  rewrite (fold_left_appending _
             (λ s, if decide (content s = "") then None else Some (block s))).
  - rewrite app_nil_l. induction l as [|s l IH]; [done|].
    rewrite filter_cons. csimpl. case_decide.
    + by rewrite decide_False by (by intros []).
    + rewrite decide_True by done. csimpl. by rewrite IH.
  - intros acc s. unfold extract_pptx_with_images.append_part.
    destruct (Py.truthy (content s)) eqn:Hs.
    + apply truthy_true in Hs. by rewrite decide_False.
    + apply truthy_false in Hs. rewrite decide_True by done.
      by rewrite app_nil_r.
Qed.

Lemma full_text_is_spec (l : list SlideData) :
  Py.join (Py.nl +:+ Py.nl) (fold_left extract_pptx_with_images.append_part l [])
  = spec_full_text l.
Proof. unfold spec_full_text. by rewrite parts_are_blocks. Qed.

(** The full text of the specification, slide by slide: a slide without
    content adds nothing, the last block stands alone, and any other block
    is followed by one blank line. *)
Lemma spec_full_text_cons (s : SlideData) (l : list SlideData) :
  spec_full_text (s :: l)
  = if decide (content s = "") then spec_full_text l
    else if decide (filter (λ s, content s ≠ "") l = []) then block s
    else block s +:+ Py.nl +:+ Py.nl +:+ spec_full_text l.
Proof.
  unfold spec_full_text. rewrite filter_cons.
  destruct (decide (content s = "")) as [Hs|Hs].
  - by rewrite decide_False by (by intros []).
  - rewrite decide_True by done.
    destruct (filter _ l) as [|s' l']; [done|].
    by rewrite decide_False by done.
Qed.

(** ** The records of the slides *)

Lemma slide_records_length dir idx rem per :
  length per = length rem → length (slide_records dir idx rem per) = length rem.
Proof.
  revert idx per; induction rem as [|slide rem IH]; intros idx [|ims per] Hl;
    simpl in *; try done. f_equal. apply IH. lia.
Qed.

Lemma slide_record_number dir n slide ims :
  slide_number (slide_record dir n slide ims) = n.
Proof. unfold slide_record. by destruct (Py.truthy_opt dir). Qed.

Lemma slide_record_content dir n slide ims :
  content (slide_record dir n slide ims)
  = Py.join Py.nl (extract_pptx_with_images.slide_texts slide).
Proof. unfold slide_record. by destruct (Py.truthy_opt dir). Qed.

Lemma slide_record_text_count dir n slide ims :
  text_count (slide_record dir n slide ims)
  = length (extract_pptx_with_images.slide_texts slide).
Proof. unfold slide_record. by destruct (Py.truthy_opt dir). Qed.

Lemma slide_record_images dir n slide ims :
  slide_images (slide_record dir n slide ims)
  = if Py.truthy_opt dir then Some (image_dict <$> ims) else None.
Proof. unfold slide_record. by destruct (Py.truthy_opt dir). Qed.

Lemma slide_records_numbers dir idx rem per :
  length per = length rem →
  slide_number <$> slide_records dir idx rem per = seq idx (length rem).
Proof.
  revert idx per; induction rem as [|slide rem IH]; intros idx [|ims per] Hl;
    simpl in *; try done.
  rewrite slide_record_number. f_equal. apply IH. lia.
Qed.

Lemma slide_records_images_on dir idx rem per :
  Py.truthy_opt dir = true → length per = length rem →
  slide_images <$> slide_records dir idx rem per
  = (λ ims, Some (image_dict <$> ims)) <$> per.
Proof.
  intros Hd. revert idx per; induction rem as [|slide rem IH];
    intros idx [|ims per] Hl; simpl in *; try done.
  rewrite slide_record_images, Hd. f_equal. apply IH. lia.
Qed.

Lemma slide_records_images_off dir idx rem per :
  Py.truthy_opt dir = false →
  Forall (λ s, slide_images s = None) (slide_records dir idx rem per).
Proof.
  intros Hd. revert idx per; induction rem as [|slide rem IH];
    intros idx [|ims per]; simpl; constructor; auto.
  by rewrite slide_record_images, Hd.
Qed.

(** Without an output directory the records are those of the text-only
    script. *)
Lemma slide_records_text_only dir idx rem per acc :
  Py.truthy_opt dir = false → length per = length rem →
  extract_pptx.slides_loop idx rem acc = acc ++ slide_records dir idx rem per.
Proof.
  intros Hd. revert idx per acc; induction rem as [|slide rem IH];
    intros idx [|ims per] acc Hl; simpl in *; try done.
  - by rewrite app_nil_r.
  - rewrite (IH _ per) by lia. rewrite <- app_assoc. simpl.
    unfold slide_record. by rewrite Hd.
Qed.

(** ** Runs of the image extraction *)

Section RunProperties.
Context {FS : Type} `{!Platform FS}.
Import extract_pptx_with_images.

Lemma extract_image_stderr shape n idx dir (w : World FS) :
  w_stderr (extract_image shape n idx dir w).1 = w_stderr w.
Proof.
  unfold extract_image, mbind, M_bind, eval, write_file, mret, M_ret.
  destruct (shape_image shape) as [image|e]; [|done].
  destruct (open_wb_write _ _ _) as [fs [e|]]; done.
Qed.

(** One turn of the loop over the shapes of a slide. *)
Lemma images_loop_cons n dir idx shape rest images (w : World FS) :
  images_loop n dir idx (shape :: rest) images w
  = if decide (shape_type shape = PICTURE) then
      match extract_image shape n idx dir w with
      | (w1, Return info) => images_loop n dir (S idx) rest (images ++ [info]) w1
      | (w1, Raise e) =>
          images_loop n dir (S idx) rest images
            (mkWorld (w_fs w1) (w_stderr w1 ++ [warning n idx e]))
      end
    else images_loop n dir (S idx) rest images w.
Proof.
  cbn [images_loop]. unfold mbind at 1, M_bind at 1.
  destruct (decide (shape_type shape = PICTURE)) as [Hp|Hp]; [|done].
  unfold try_except, mbind at 1, M_bind at 1.
  destruct (extract_image shape n idx dir w) as [w1 [info|err]]; done.
Qed.

Lemma images_loop_returns n dir idx shapes images (w : World FS) :
  ∃ w' found warnings,
    images_loop n dir idx shapes images w = (w', Return (images ++ found)) ∧
    w_stderr w' = w_stderr w ++ warnings ∧
    length found + length warnings = length (filter is_picture shapes).
Proof.
  revert idx images w; induction shapes as [|shape rest IH]; intros idx images w.
  - exists w, [], []. by rewrite !app_nil_r.
  - rewrite images_loop_cons, filter_cons. unfold is_picture at 1.
    case_decide as Hp.
    + pose proof (extract_image_stderr shape n idx dir w) as Herr.
      destruct (extract_image shape n idx dir w) as [w1 [info|e]]; simpl in Herr.
      * destruct (IH (S idx) (images ++ [info]) w1) as (w' & found & warns & -> & Hw & Hl).
        exists w', (info :: found), warns. rewrite <- app_assoc. simpl.
        split_and!; [done|congruence|lia].
      * destruct (IH (S idx) images (mkWorld (w_fs w1) (w_stderr w1 ++ [warning n idx e])))
          as (w' & found & warns & -> & Hw & Hl).
        exists w', found, (warning n idx e :: warns). simpl in *.
        split_and!; [done| |lia]. rewrite Hw, Herr, <- app_assoc. done.
    + apply IH.
Qed.

Lemma extract_images_from_slide_returns slide n dir (w : World FS) :
  ∃ w' found warnings,
    extract_images_from_slide slide n dir w = (w', Return found) ∧
    w_stderr w' = w_stderr w ++ warnings ∧
    length found + length warnings
    = length (filter is_picture (slide_shapes slide)).
Proof. apply (images_loop_returns n dir 0 (slide_shapes slide) [] w). Qed.

(** ** Runs of the loop over the slides *)

Lemma slides_loop_returns dir idx rem acc_s acc_i (w : World FS) :
  ∃ w' per,
    length per = length rem ∧
    slides_loop dir idx rem acc_s acc_i w
    = (w', Return (acc_s ++ slide_records dir idx rem per, acc_i ++ concat per)) ∧
    (Py.truthy_opt dir = false → w' = w ∧ concat per = []).
Proof.
  revert idx acc_s acc_i w; induction rem as [|slide rem IH];
    intros idx acc_s acc_i w.
  - exists w, []. by rewrite !app_nil_r.
  - cbn [slides_loop]. unfold mbind at 1, M_bind at 1.
    destruct (Py.truthy_opt dir) eqn:Hd.
    + destruct dir as [d|]; [|done]. simpl in Hd. rewrite Hd.
      unfold mbind at 1, M_bind at 1.
      destruct (extract_images_from_slide_returns slide idx d w)
        as (w1 & found & warns & -> & _ & _).
      unfold mret at 1, M_ret at 1.
      destruct (IH (S idx) (acc_s ++ [set_images (extract_text_from_slide slide idx) found])
                  (acc_i ++ found) w1) as (w' & per & Hl & -> & _).
      exists w', (found :: per). split_and!; [simpl; lia| |done].
      simpl. unfold slide_record at 1. simpl. rewrite Hd.
      by rewrite <- !app_assoc.
    + destruct (IH (S idx) (acc_s ++ [extract_text_from_slide slide idx]) acc_i w)
        as (w' & per & Hl & Hrun & Hoff).
      exists w', ([] :: per). split_and!; [simpl; lia| |by apply Hoff].
      assert (Hstep : (match dir with
                 | Some d => if Py.truthy d
                     then images ← extract_images_from_slide slide idx d;
                          mret (set_images (extract_text_from_slide slide idx) images,
                                acc_i ++ images)
                     else mret (extract_text_from_slide slide idx, acc_i)
                 | None => mret (extract_text_from_slide slide idx, acc_i)
                 end) w = (w, Return (extract_text_from_slide slide idx, acc_i))).
      { destruct dir as [d|]; [|done]. simpl in Hd. by rewrite Hd. }
      rewrite Hstep, Hrun. simpl. unfold slide_record at 1. rewrite Hd.
      by rewrite <- !app_assoc.
Qed.

Lemma slides_loop_falsy dir idx rem acc_s acc_i (w : World FS) :
  Py.truthy_opt dir = false →
  slides_loop dir idx rem acc_s acc_i w = slides_loop None idx rem acc_s acc_i w.
Proof.
  intros Hd. revert idx acc_s acc_i; induction rem as [|slide rem IH];
    intros idx acc_s acc_i; [done|].
  cbn [slides_loop]. destruct dir as [d|]; [|done]. simpl in Hd. rewrite Hd.
  unfold mbind, M_bind, mret, M_ret. apply IH.
Qed.

Lemma ensure_output_dir_falsy dir (w : World FS) :
  Py.truthy_opt dir = false → ensure_output_dir dir w = (w, Return ()).
Proof. destruct dir as [d|]; [|done]. simpl. by intros ->. Qed.

(** ** Runs of the two extractors *)

(** A successful run of [extract_pptx_data]: the package loaded, and the
    result is assembled from the records of its slides. *)
Lemma extract_pptx_data_success path dir (w w' : World FS) r :
  extract_pptx_data path dir w = (w', Return r) →
  dict_get "success" r = Some (VBool true) →
  ∃ prs per,
    Presentation (w_fs w) path = Return prs ∧
    length per = length (prs_slides prs) ∧
    r = assemble prs (metadata_of prs)
          (slide_records dir 1 (prs_slides prs) per) (concat per) ∧
    (Py.truthy_opt dir = false → w' = w ∧ concat per = []).
Proof.
  unfold extract_pptx_data, try_except, load_presentation.
  unfold mbind at 1, M_bind at 1.
  destruct (Presentation (w_fs w) path) as [prs|[msg|msg]];
    [|intros [= <- <-]; done..].
  unfold mbind at 1, M_bind at 1.
  destruct (Py.truthy_opt dir) eqn:Hd.
  - destruct (ensure_output_dir dir w) as [w1 [[]|[msg|msg]]];
      [|intros [= <- <-]; done..].
    unfold mbind at 1, M_bind at 1.
    destruct (slides_loop_returns dir 1 (prs_slides prs) [] [] w1)
      as (w2 & per & Hl & -> & _).
    intros [= <- <-] _. exists prs, per. split_and!; done.
  - rewrite ensure_output_dir_falsy by done.
    unfold mbind at 1, M_bind at 1.
    destruct (slides_loop_returns dir 1 (prs_slides prs) [] [] w)
      as (w2 & per & Hl & -> & Hoff).
    intros [= <- <-] _. exists prs, per. destruct (Hoff Hd) as [-> ?].
    split_and!; done.
Qed.


(** The text-only extractor changes nothing and always returns. *)
Lemma extract_text_from_pptx_run path (w : World FS) :
  extract_pptx.extract_text_from_pptx path w
  = (w, Return
          match Presentation (w_fs w) path with
          | Return prs =>
              extract_pptx.assemble prs (extract_pptx.metadata_of prs)
                (extract_pptx.slides_loop 1 (prs_slides prs) [])
          | Raise (FileNotFoundError _) =>
              extract_pptx.failure ("File not found: " +:+ path)
          | Raise (OtherException msg) =>
              extract_pptx.failure ("Error extracting PPTX: " +:+ msg)
          end).
Proof.
  unfold extract_pptx.extract_text_from_pptx, try_except, load_presentation.
  unfold mbind at 1, M_bind at 1.
  by destruct (Presentation (w_fs w) path) as [prs|[msg|msg]].
Qed.

End RunProperties.

(** ** The fields of a successful result *)

Section ResultFields.
Import extract_pptx_with_images.

Lemma assemble_fields prs metadata slides all_images :
  let r := assemble prs metadata slides all_images in
  dict_get "success" r = Some (VBool true) ∧
  dict_get "metadata" r = Some metadata ∧
  dict_get "slides" r = Some (VList (slide_dict <$> slides)) ∧
  dict_get "full_text" r = Some (VStr (spec_full_text slides)) ∧
  dict_get "total_slides" r = Some (VInt (Z.of_nat (length (prs_slides prs)))) ∧
  dict_get "slides_with_text" r
  = Some (VInt (Z.of_nat (length (filter (λ s, content s ≠ "") slides)))) ∧
  dict_get "total_characters" r
  = Some (VInt (Z.of_nat (String.length (spec_full_text slides)))) ∧
  dict_get "total_images" r = Some (VInt (Z.of_nat (length all_images))) ∧
  dict_get "images" r = Some (VList (image_dict <$> all_images)).
Proof.
  intros r. subst r. unfold assemble.
  rewrite full_text_is_spec, filter_truthy_content.
  split_and!; reflexivity.
Qed.

Lemma text_only_assemble_fields prs metadata slides :
  let r := extract_pptx.assemble prs metadata slides in
  dict_get "success" r = Some (VBool true) ∧
  dict_get "metadata" r = Some metadata ∧
  dict_get "slides" r = Some (VList (slide_dict <$> slides)) ∧
  dict_get "full_text" r = Some (VStr (spec_full_text slides)) ∧
  dict_get "total_slides" r = Some (VInt (Z.of_nat (length (prs_slides prs)))) ∧
  dict_get "slides_with_text" r
  = Some (VInt (Z.of_nat (length (filter (λ s, content s ≠ "") slides)))) ∧
  dict_get "total_characters" r
  = Some (VInt (Z.of_nat (String.length (spec_full_text slides)))) ∧
  dict_get "total_images" r = None ∧
  dict_get "images" r = None.
Proof.
  intros r. subst r. unfold extract_pptx.assemble.
  change extract_pptx.append_part with append_part.
  rewrite full_text_is_spec, filter_truthy_content.
  split_and!; reflexivity.
Qed.

Lemma failure_fields message key :
  dict_get key (failure message)
  = if decide ("success" = key) then Some (VBool false)
    else if decide ("error" = key) then Some (VStr message) else None.
Proof. reflexivity. Qed.

Lemma slide_dict_images s :
  dict_get "images" (slide_dict s) = VList <$> slide_images s.
Proof. by destruct s as [n c t [images|]]. Qed.

End ResultFields.

(** The k-th record holds the text of the k-th slide. *)
Lemma slide_records_texts dir idx rem per :
  length per = length rem →
  Forall2 (λ s slide,
             content s = Py.join Py.nl (extract_pptx_with_images.slide_texts slide)
             ∧ text_count s = length (extract_pptx_with_images.slide_texts slide))
          (slide_records dir idx rem per) rem.
Proof.
  revert idx per; induction rem as [|slide rem IH]; intros idx [|ims per] Hl;
    simpl in *; try done; constructor.
  - by rewrite slide_record_content, slide_record_text_count.
  - apply IH. lia.
Qed.

(** The records depend on the output directory through its truth value
    only. *)
Lemma slide_records_truthy dir dir' idx rem per :
  Py.truthy_opt dir = Py.truthy_opt dir' →
  slide_records dir idx rem per = slide_records dir' idx rem per.
Proof.
  intros Hd. revert idx per; induction rem as [|slide rem IH];
    intros idx [|ims per]; simpl; try done.
  rewrite IH. unfold slide_record. by rewrite Hd.
Qed.

(** ** Runs without an output directory *)

Section FalsyRuns.
Context {FS : Type} `{!Platform FS}.
Import extract_pptx_with_images.

Lemma slides_loop_off dir idx rem acc_s acc_i (w : World FS) :
  Py.truthy_opt dir = false →
  slides_loop dir idx rem acc_s acc_i w
  = (w, Return (acc_s ++ slide_records dir idx rem (replicate (length rem) []),
                acc_i)).
Proof.
  intros Hd. revert idx acc_s; induction rem as [|slide rem IH];
    intros idx acc_s.
  - simpl. by rewrite app_nil_r.
  - cbn [slides_loop]. unfold mbind at 1, M_bind at 1.
    assert (Hstep : (match dir with
               | Some d => if Py.truthy d
                   then images ← extract_images_from_slide slide idx d;
                        mret (set_images (extract_text_from_slide slide idx) images,
                              acc_i ++ images)
                   else mret (extract_text_from_slide slide idx, acc_i)
               | None => mret (extract_text_from_slide slide idx, acc_i)
               end) w = (w, Return (extract_text_from_slide slide idx, acc_i))).
    { destruct dir as [d|]; [|done]. simpl in Hd. by rewrite Hd. }
    rewrite Hstep, IH. cbn [length replicate slide_records].
    unfold slide_record at 1. rewrite Hd. by rewrite <- app_assoc.
Qed.

(** Without an output directory (none given, or the empty string) a run
    of [extract_pptx_data] changes nothing, and its result depends on the
    loader alone. *)
Lemma extract_pptx_data_off path dir (w : World FS) :
  Py.truthy_opt dir = false →
  extract_pptx_data path dir w
  = (w, Return
          match Presentation (w_fs w) path with
          | Return prs =>
              assemble prs (metadata_of prs)
                (slide_records dir 1 (prs_slides prs)
                   (replicate (length (prs_slides prs)) [])) []
          | Raise (FileNotFoundError _) =>
              failure ("File not found: " +:+ path)
          | Raise (OtherException msg) =>
              failure ("Error extracting PPTX: " +:+ msg)
          end).
Proof.
  intros Hd. unfold extract_pptx_data, try_except, load_presentation.
  unfold mbind at 1, M_bind at 1.
  destruct (Presentation (w_fs w) path) as [prs|[msg|msg]]; [|done..].
  unfold mbind at 1, M_bind at 1. rewrite ensure_output_dir_falsy by done.
  unfold mbind at 1, M_bind at 1. by rewrite slides_loop_off.
Qed.

End FalsyRuns.

Lemma omap_through_fmap {A B C} (g : A → B) (f : B → option C) (l : list A) :
  omap (λ x, f (g x)) l = omap f (g <$> l).
Proof. induction l as [|x l IH]; [done|]. csimpl. by rewrite IH. Qed.

(** ** File names *)

Lemma pretty_N_char_digit x : is_digit (pretty_N_char x) = true.
Proof. unfold pretty_N_char. by repeat case_match. Qed.

Lemma pretty_N_go_digits x s :
  all_digits s = true → all_digits (pretty_N_go x s) = true.
Proof.
  revert s. induction (N.lt_wf_0 x) as [x _ IH]; intros s Hs.
  assert (x = 0 ∨ 0 < x)%N as [->|?] by lia.
  - by rewrite pretty_N_go_0.
  - rewrite pretty_N_go_step by done. apply IH.
    { by apply N.div_lt. }
    simpl. by rewrite pretty_N_char_digit.
Qed.

(** The decimal rendering of a number consists of digits. *)
Lemma pretty_nat_digits (n : nat) : all_digits (pretty n) = true.
Proof.
  unfold pretty, pretty_nat, pretty, pretty_N.
  case_decide; [done|]. by apply pretty_N_go_digits.
Qed.

(** A run of digits that ends before a character that is no digit is
    determined by the text it starts. *)
Lemma digits_prefix_unique d d' c c' r r' :
  all_digits d = true → all_digits d' = true →
  is_digit c = false → is_digit c' = false →
  d +:+ String c r = d' +:+ String c' r' →
  d = d' ∧ String c r = String c' r'.
Proof.
  revert d'; induction d as [|a d IH]; intros [|a' d'] Hd Hd' Hc Hc' Heq;
    simpl in *.
  - done.
  - injection Heq as -> _. apply andb_prop in Hd' as [Ha _]. congruence.
  - injection Heq as <- _. apply andb_prop in Hd as [Ha _]. congruence.
  - injection Heq as -> Heq.
    apply andb_prop in Hd as [_ Hd]. apply andb_prop in Hd' as [_ Hd'].
    destruct (IH d' Hd Hd' Hc Hc' Heq) as [-> ?]. done.
Qed.

(** The name of an image file determines the slide number and the shape
    index it was made from. *)
Lemma image_name_inj n i ext n' i' ext' :
  image_name n i ext = image_name n' i' ext' → n = n' ∧ i = i' ∧ ext = ext'.
Proof.
  unfold image_name. intros Heq.
  apply (inj (String.app "slide_")) in Heq.
  apply digits_prefix_unique in Heq as [Hn Heq];
    [|apply pretty_nat_digits..|done|done].
  apply (inj pretty) in Hn.
  apply (inj (String.app "_img_")) in Heq.
  apply digits_prefix_unique in Heq as [Hi Heq];
    [|apply pretty_nat_digits..|done|done].
  apply (inj pretty) in Hi. injection Heq as ->.
  split_and!; [done|lia|done].
Qed.

Lemma contains_app c s t :
  Py.contains c (s +:+ t) = Py.contains c s || Py.contains c t.
Proof.
  induction s as [|a s IH]; simpl; [done|]. by destruct (Ascii.eqb c a).
Qed.

Lemma digits_no_slash s : all_digits s = true → Py.contains "/" s = false.
Proof.
  induction s as [|a s IH]; [done|].
  cbn [all_digits Py.contains]. intros [Ha Hs]%andb_prop.
  destruct (Ascii.eqb_spec "/"%char a) as [<-|_]; [done|]. by apply IH.
Qed.

(** No part of [s.split(sep)] contains the separator. *)
Lemma split_parts_no_sep sep s :
  Forall (λ part, Py.contains sep part = false) (Py.split sep s).
Proof.
  induction s as [|c s IH]; simpl.
  - by constructor.
  - destruct (Ascii.eqb_spec c sep) as [->|Hne].
    + by constructor.
    + destruct (Py.split sep s) as [|h t]; simpl.
      * constructor; [|done]. simpl.
        destruct (Ascii.eqb_spec sep c); [congruence|done].
      * apply Forall_cons in IH as [Hh Ht]. constructor; [|done]. simpl.
        destruct (Ascii.eqb_spec sep c); [congruence|done].
Qed.

Lemma split_not_nil sep s : Py.split sep s ≠ [].
Proof.
  destruct s as [|c s]; simpl; [done|].
  destruct (Ascii.eqb c sep); [done|]. by destruct (Py.split sep s).
Qed.

Lemma extension_no_slash content_type :
  Py.contains "/" (extension_of content_type) = false.
Proof.
  unfold extension_of. destruct (Py.contains "/" content_type); [|done].
  unfold Py.last_item.
  pose proof (split_parts_no_sep "/" content_type) as Hall.
  pose proof (split_not_nil "/" content_type) as Hne.
  destruct (exists_last Hne) as (l & part & Heq). rewrite Heq in *.
  rewrite last_last. apply Forall_app in Hall as [_ Hall].
  by apply Forall_cons in Hall as [? _].
Qed.

Lemma image_name_no_slash n i content_type :
  Py.contains "/" (image_name n i (extension_of content_type)) = false.
Proof.
  unfold image_name.
  rewrite !contains_app, extension_no_slash.
  by rewrite !(digits_no_slash (pretty _)) by apply pretty_nat_digits.
Qed.

Lemma string_app_assoc (a b c : string) : (a +:+ b) +:+ c = a +:+ b +:+ c.
Proof.
  induction a as [|x a IH]; [done|].
  change (String x ((a +:+ b) +:+ c) = String x (a +:+ b +:+ c)).
  by rewrite IH.
Qed.

(** Joining a directory and a file name that does not start with the
    separator puts the name right under the directory. *)
Lemma os_path_join_under dir name :
  Py.startswith_sep name = false →
  Py.os_path_join dir name
  = (if negb (Py.truthy dir) || Py.endswith_sep dir then dir else dir +:+ "/")
    +:+ name.
Proof.
  intros Hname. unfold Py.os_path_join. rewrite Hname.
  destruct (negb (Py.truthy dir) || Py.endswith_sep dir); [done|].
  by rewrite string_app_assoc.
Qed.

Lemma strictly_increasing_NoDup (l : list nat) : StronglySorted lt l → NoDup l.
Proof.
  induction 1 as [|x l _ IH Hall]; constructor; [|done].
  intros Hin. rewrite Forall_forall in Hall. specialize (Hall _ Hin). lia.
Qed.

(** Records that carry distinct keys, each key determined by the name of
    its record, have distinct names. *)
Lemma NoDup_by_keys {A K B} (R : A → K → Prop) (g : A → B) l ks :
  Forall2 R l ks → NoDup ks →
  (∀ a b x y, R a x → R b y → g a = g b → x = y) →
  NoDup (g <$> l).
Proof.
  intros Hall Hnd Hinj. induction Hall as [|a x l ks Hax Hall IH]; csimpl.
  - constructor.
  - apply NoDup_cons in Hnd as [Hx Hnd]. constructor; [|by apply IH].
    intros (b & Hgb & Hb)%list_elem_of_fmap.
    apply list_elem_of_lookup in Hb as [i Hb].
    destruct (Forall2_lookup_l _ _ _ _ _ Hall Hb) as (y & Hy & Hby).
    apply list_elem_of_lookup_2 in Hy.
    by rewrite (Hinj _ _ _ _ Hax Hby Hgb) in Hx.
Qed.


(** ** The image extraction, case by case *)

Section ImageRuns.
Context {FS : Type} `{!Platform FS}.
Import extract_pptx_with_images.

(** The body of the [try], by what reading and saving the bytes give. *)
Lemma extract_image_cases shape n idx dir (w : World FS) :
  extract_image shape n idx dir w
  = match shape_image shape with
    | Raise e => (w, Raise e)
    | Return image =>
        let '(fs', r) := open_wb_write (w_fs w)
                           (image_path (record_of dir n idx image))
                           (blob image) in
        (mkWorld fs' (w_stderr w),
         match r with
         | Some e => Raise e
         | None => Return (record_of dir n idx image)
         end)
    end.
Proof.
  unfold extract_image, mbind, M_bind, eval, write_file, mret, M_ret.
  destruct (shape_image shape) as [image|e]; [|done].
  change (Py.os_path_join dir _)
    with (image_path (record_of dir n idx image)).
  by destruct (open_wb_write _ _ _) as [fs' [e|]].
Qed.




End ImageRuns.

(** ** Decks that differ in their images only *)

Section SameText.
Import extract_pptx_with_images.

Lemma shape_fragments_depth_one a b :
  same_to_depth_one a b → shape_fragments a = shape_fragments b.
Proof.
  intros (Ht & Hty & Htab & Hch). unfold shape_fragments.
  rewrite Ht, Hty, Htab. do 2 f_equal. case_decide; [|done].
  by rewrite !(omap_through_fmap shape_text fragment), Hch.
Qed.

Lemma slide_texts_apart_from_images a b :
  same_slide_apart_from_images a b → slide_texts a = slide_texts b.
Proof.
  intros (Hshapes & Hhas & Hnotes).
  rewrite !slide_texts_fragments. unfold notes_fragment.
  rewrite Hhas, Hnotes. f_equal. f_equal.
  induction Hshapes as [|x y l l' Hxy _ IH]; [done|].
  by rewrite !fmap_cons, IH, (shape_fragments_depth_one x y).
Qed.



End SameText.

(** * The claims of the specification *)

Section Claims.
Context {FS : Type} `{!Platform FS}.
Import extract_pptx_with_images.

(** C2.  For every successful extraction, by either script, [full_text]
    is the concatenation, over exactly the slides with non-empty content
    and in ascending order of [slide_number], of the blocks
    [=== Slide <n> ===], newline, content, consecutive blocks separated by
    one blank line ([spec_full_text]); slides with empty content contribute
    nothing; [total_characters] is the length of [full_text] and
    [slides_with_text] the number of slides with non-empty content. *)
Theorem full_text_assembly path dir (w w' : World FS) r :
  extract_pptx_data path dir w = (w', Return r)
  ∨ extract_pptx.extract_text_from_pptx path w = (w', Return r) →
  dict_get "success" r = Some (VBool true) →
  ∃ slides : list SlideData,
    dict_get "slides" r = Some (VList (slide_dict <$> slides)) ∧
    slide_number <$> slides = seq 1 (length slides) ∧
    dict_get "full_text" r = Some (VStr (spec_full_text slides)) ∧
    dict_get "total_characters" r
    = Some (VInt (Z.of_nat (String.length (spec_full_text slides)))) ∧
    dict_get "slides_with_text" r
    = Some (VInt (Z.of_nat (length (filter (λ s, content s ≠ "") slides)))).
Proof.
  intros [Hrun|Hrun] Hok.
  - destruct (extract_pptx_data_success _ _ _ _ _ Hrun Hok)
      as (prs & per & _ & Hl & -> & _).
    exists (slide_records dir 1 (prs_slides prs) per).
    destruct (assemble_fields prs (metadata_of prs)
                (slide_records dir 1 (prs_slides prs) per) (concat per))
      as (_ & _ & Hs & Hf & _ & Hn & Hc & _).
    rewrite slide_records_numbers, slide_records_length by done.
    by split_and!.
  - rewrite extract_text_from_pptx_run in Hrun. injection Hrun as <- <-.
    destruct (Presentation (w_fs w) path) as [prs|[msg|msg]]; [|done..].
    rewrite (slide_records_text_only None 1 (prs_slides prs)
               (replicate (length (prs_slides prs)) []) [])
      by (by rewrite ?length_replicate).
    rewrite app_nil_l.
    set (slides := slide_records None 1 (prs_slides prs) _).
    exists slides.
    destruct (text_only_assemble_fields prs (extract_pptx.metadata_of prs) slides)
      as (_ & _ & Hs & Hf & _ & Hn & Hc & _).
    subst slides.
    rewrite slide_records_numbers, slide_records_length
      by (by rewrite length_replicate).
    by split_and!.
Qed.

(** C7.  For a package with N slides that loads, a successful result has
    [total_slides] = N, N slide records, and [slide_number] values
    1, 2, ..., N in that order, the k-th record holding the text of the
    k-th slide of the package. *)
Theorem slide_numbering path dir (w w' : World FS) prs r :
  Presentation (w_fs w) path = Return prs →
  extract_pptx_data path dir w = (w', Return r) →
  dict_get "success" r = Some (VBool true) →
  ∃ slides : list SlideData,
    dict_get "total_slides" r
    = Some (VInt (Z.of_nat (length (prs_slides prs)))) ∧
    dict_get "slides" r = Some (VList (slide_dict <$> slides)) ∧
    length slides = length (prs_slides prs) ∧
    slide_number <$> slides = seq 1 (length (prs_slides prs)) ∧
    Forall2 (λ s slide,
               content s = content (extract_text_from_slide slide (slide_number s))
               ∧ text_count s
                 = text_count (extract_text_from_slide slide (slide_number s)))
            slides (prs_slides prs).
Proof.
  intros Hload Hrun Hok.
  destruct (extract_pptx_data_success _ _ _ _ _ Hrun Hok)
    as (prs' & per & Hload' & Hl & -> & _).
  assert (prs' = prs) as -> by congruence.
  exists (slide_records dir 1 (prs_slides prs) per).
  destruct (assemble_fields prs (metadata_of prs)
              (slide_records dir 1 (prs_slides prs) per) (concat per))
    as (_ & _ & Hs & _ & Ht & _).
  split_and!; [done|done|by apply slide_records_length
              |by apply slide_records_numbers
              |by apply slide_records_texts].
Qed.

(** C9.  The empty string as output directory behaves as no output
    directory at all: the run is the same, result and world; the world is
    left as it was, so no directory is created and no file written; and no
    slide record of the result carries the key [images]. *)
Theorem empty_output_dir_is_no_output_dir path (w : World FS) :
  extract_pptx_data path (Some "") w = extract_pptx_data path None w ∧
  (extract_pptx_data path (Some "") w).1 = w ∧
  ∀ r slides,
    (extract_pptx_data path (Some "") w).2 = Return r →
    dict_get "slides" r = Some (VList slides) →
    Forall (λ s, dict_get "images" s = None) slides.
Proof.
  rewrite !extract_pptx_data_off by done.
  destruct (Presentation (w_fs w) path) as [prs|[msg|msg]];
    [|split_and!; [done..|]; simpl; intros r slides [= <-]; done..].
  rewrite (slide_records_truthy (Some "") None) by done.
  split_and!; [done..|]. simpl. intros r slides [= <-].
  rewrite (proj1 (proj2 (proj2 (assemble_fields _ _ _ _)))).
  intros [= <-]. apply Forall_fmap.
  eapply Forall_impl; [by apply (slide_records_images_off None)|].
  intros s Hs. change (dict_get "images" (slide_dict s) = None).
  by rewrite slide_dict_images, Hs.
Qed.

(** C10.  Where both succeed, the text-only extractor and
    [extract_pptx_data] without an output directory return the same
    [metadata], the same slide records (number, content and count, and
    nothing else), the same [full_text], [total_slides],
    [slides_with_text] and [total_characters]; both leave the world as it
    was. *)
Theorem extractors_agree path (w w1 w2 : World FS) r1 r2 :
  extract_pptx.extract_text_from_pptx path w = (w1, Return r1) →
  extract_pptx_data path None w = (w2, Return r2) →
  dict_get "success" r1 = Some (VBool true) →
  dict_get "success" r2 = Some (VBool true) →
  dict_get "metadata" r1 = dict_get "metadata" r2 ∧
  dict_get "slides" r1 = dict_get "slides" r2 ∧
  dict_get "full_text" r1 = dict_get "full_text" r2 ∧
  dict_get "total_slides" r1 = dict_get "total_slides" r2 ∧
  dict_get "slides_with_text" r1 = dict_get "slides_with_text" r2 ∧
  dict_get "total_characters" r1 = dict_get "total_characters" r2 ∧
  w1 = w ∧ w2 = w.
Proof.
  intros Hrun1 Hrun2 Hok1 Hok2.
  destruct (extract_pptx_data_success _ _ _ _ _ Hrun2 Hok2)
    as (prs & per & Hload & Hl & -> & Hoff).
  destruct (Hoff eq_refl) as [-> _].
  rewrite extract_text_from_pptx_run, Hload in Hrun1.
  injection Hrun1 as <- <-.
  rewrite (slide_records_text_only None 1 (prs_slides prs) per []) by done.
  rewrite app_nil_l.
  destruct (assemble_fields prs (metadata_of prs)
              (slide_records None 1 (prs_slides prs) per) (concat per))
    as (_ & -> & -> & -> & -> & -> & -> & _).
  destruct (text_only_assemble_fields prs (extract_pptx.metadata_of prs)
              (slide_records None 1 (prs_slides prs) per))
    as (_ & -> & -> & -> & -> & -> & -> & _).
  split_and!; done.
Qed.

(** C8.  A group shape on a slide contributes to the record of the slide,
    at its place among the shapes, its own text if it exposes any and then
    one fragment for each immediate child that exposes non-empty trimmed
    text, in order: [content] joins the fragments of the shapes before the
    group, those of the group, those of the shapes after it and the notes,
    and [text_count] counts them.  A child gives the fragment a shape with
    the same text gives on the slide itself ([fragment]).  What lies below
    the children is never read: two slides whose shapes agree down to the
    children's texts ([same_to_depth_one]) and whose notes agree give the
    same record, so a group inside a group contributes nothing of its
    own children. *)
Theorem group_text_is_one_level slide n pre group post :
  slide_shapes slide = pre ++ group :: post →
  shape_type group = GROUP →
  let texts :=
    concat (shape_fragments <$> pre)
    ++ option_list (fragment (shape_text group))
    ++ omap (λ child, fragment (shape_text child)) (shape_shapes group)
    ++ concat (shape_fragments <$> post)
    ++ option_list (notes_fragment slide) in
  extract_text_from_slide slide n
  = {| slide_number := n;
       content := Py.join Py.nl texts;
       text_count := length texts;
       slide_images := None |}
  ∧ (∀ shape k,
       shape_type shape ≠ TABLE → shape_type shape ≠ GROUP →
       extract_text_from_slide (mkSlide [shape] false "") k
       = {| slide_number := k;
            content := Py.join Py.nl (option_list (fragment (shape_text shape)));
            text_count := length (option_list (fragment (shape_text shape)));
            slide_images := None |})
  ∧ (∀ slide' k,
       Forall2 same_to_depth_one (slide_shapes slide) (slide_shapes slide') →
       has_notes_slide slide = has_notes_slide slide' →
       notes_text slide = notes_text slide' →
       extract_text_from_slide slide k = extract_text_from_slide slide' k).
Proof.
  intros Hshapes Hg texts. split_and!.
  - unfold extract_text_from_slide.
    assert (slide_texts slide = texts) as ->; [|done].
    rewrite slide_texts_fragments, Hshapes, fmap_app, fmap_cons, concat_app.
    subst texts. simpl. unfold shape_fragments at 2. rewrite Hg.
    rewrite decide_False, decide_True by done.
    by rewrite app_nil_l, <- !app_assoc.
  - intros shape k Ht Hgr. unfold extract_text_from_slide.
    rewrite slide_texts_fragments. simpl. unfold shape_fragments.
    by rewrite !decide_False, !app_nil_r by done.
  - intros slide' k Hall Hhas Hnotes. unfold extract_text_from_slide.
    by rewrite (slide_texts_apart_from_images slide slide').
Qed.

(** Every record in the list the loop returns was in the list it started
    with or comes from [extract_image] on one of the shapes. *)
Lemma images_loop_records (P : ImageInfo → Prop) n dir shapes :
  (∀ shape idx (w w1 : World FS) info,
     shape ∈ shapes → shape_type shape = PICTURE →
     extract_image shape n idx dir w = (w1, Return info) → P info) →
  ∀ idx images (w w' : World FS) found,
    Forall P images →
    images_loop n dir idx shapes images w = (w', Return found) →
    Forall P found.
Proof.
  induction shapes as [|shape rest IH]; intros Hstep idx images w w' found Hacc.
  - by intros [= <- <-].
  - rewrite images_loop_cons.
    assert (Hrest : ∀ shape idx (w w1 : World FS) info,
              shape ∈ rest → shape_type shape = PICTURE →
              extract_image shape n idx dir w = (w1, Return info) → P info).
    { intros shape' idx' v v1 info Hin. apply Hstep. by right. }
    case_decide as Hp; [|by apply IH].
    destruct (extract_image shape n idx dir w) as [w1 [info|e]] eqn:Himg.
    + apply IH; [done|]. apply Forall_app. split; [done|].
      constructor; [|done]. eapply Hstep; [by left|done|done].
    + by apply IH.
Qed.

Lemma extract_image_record shape n idx dir (w w1 : World FS) info :
  extract_image shape n idx dir w = (w1, Return info) →
  ∃ image,
    shape_image shape = Return image ∧
    image_size info = length (blob image) ∧
    image_content_type info = content_type image ∧
    image_base64 info
    = "data:" +:+ content_type image +:+ ";base64,"
      +:+ Py.slice_to 100 (Py.b64encode (blob image)) +:+ "...".
Proof.
  unfold extract_image, mbind, M_bind, eval, write_file, mret, M_ret.
  destruct (shape_image shape) as [image|e]; [|done].
  destruct (open_wb_write _ _ _) as [fs [e|]]; [done|].
  intros [= <- <-]. by exists image.
Qed.

(** The whole encoded text fits in the first 100 characters exactly for
    images of at most 75 bytes. *)
Lemma b64encode_fits data :
  Py.slice_to 100 (Py.b64encode data) = Py.b64encode data ↔ length data ≤ 75.
Proof.
  rewrite slice_to_all, b64encode_length.
  pose proof (Nat.div_mod (length data + 2) 3).
  pose proof (Nat.mod_upper_bound (length data + 2) 3). lia.
Qed.

(** C4, as amended.  For every image record [extract_images_from_slide]
    returns, the [base64] field is ["data:<content type>;base64,"], then the
    first 100 characters of the base64 encoding of the bytes of a picture
    of the slide (all of them when there are no more than 100), then
    ["..."]; the exposed part never exceeds 100 characters, and it is the
    full encoding exactly when the image has at most 75 bytes. *)
Theorem base64_preview_is_bounded slide n dir (w w' : World FS) found :
  extract_images_from_slide slide n dir w = (w', Return found) →
  Forall (λ info,
    ∃ shape image,
      shape ∈ slide_shapes slide ∧ shape_type shape = PICTURE ∧
      shape_image shape = Return image ∧
      image_size info = length (blob image) ∧
      image_base64 info
      = "data:" +:+ content_type image +:+ ";base64,"
        +:+ Py.slice_to 100 (Py.b64encode (blob image)) +:+ "..." ∧
      String.length (Py.slice_to 100 (Py.b64encode (blob image))) ≤ 100 ∧
      (Py.slice_to 100 (Py.b64encode (blob image)) = Py.b64encode (blob image)
       ↔ image_size info ≤ 75)) found.
Proof.
  unfold extract_images_from_slide.
  apply images_loop_records; [|done].
  intros shape idx v v1 info Hin Hp Himg.
  destruct (extract_image_record _ _ _ _ _ _ _ Himg) as (image & Hi & Hs & _ & Hb).
  exists shape, image. split_and!; try done.
  - rewrite slice_to_length. lia.
  - rewrite Hs. apply b64encode_fits.
Qed.


(** C6, as amended.  A successful result of [extract_pptx_data] always
    has the fields [total_images] and [images], whether or not an output
    directory was given, and [total_images] is the length of [images].
    With an output directory, every slide record has the key [images], and
    the top-level [images] is the concatenation of the lists of the
    slides in ascending slide order; without one, [images] is empty and no
    slide record has the key. *)
Theorem image_fields_of_result path dir (w w' : World FS) r :
  extract_pptx_data path dir w = (w', Return r) →
  dict_get "success" r = Some (VBool true) →
  ∃ (slides : list SlideData) (all_images : list value),
    dict_get "slides" r = Some (VList (slide_dict <$> slides)) ∧
    slide_number <$> slides = seq 1 (length slides) ∧
    dict_get "images" r = Some (VList all_images) ∧
    dict_get "total_images" r = Some (VInt (Z.of_nat (length all_images))) ∧
    if Py.truthy_opt dir
    then ∃ per_slide : list (list value),
           (λ s, dict_get "images" (slide_dict s)) <$> slides
           = (λ images, Some (VList images)) <$> per_slide ∧
           all_images = concat per_slide
    else all_images = [] ∧
         Forall (λ s, dict_get "images" (slide_dict s) = None) slides.
Proof.
  intros Hrun Hok.
  destruct (extract_pptx_data_success _ _ _ _ _ Hrun Hok)
    as (prs & per & _ & Hl & -> & Hoff).
  exists (slide_records dir 1 (prs_slides prs) per), (image_dict <$> concat per).
  destruct (assemble_fields prs (metadata_of prs)
              (slide_records dir 1 (prs_slides prs) per) (concat per))
    as (_ & _ & Hs & _ & _ & _ & _ & Hn & Hi).
  rewrite slide_records_numbers, slide_records_length, length_fmap by done.
  split_and!; try done.
  destruct (Py.truthy_opt dir) eqn:Hd.
  - exists ((λ ims : list ImageInfo, image_dict <$> ims) <$> per). split.
    + transitivity ((λ o : option (list value), VList <$> o)
                    <$> (slide_images <$> slide_records dir 1 (prs_slides prs) per)).
      { rewrite <- list_fmap_compose. apply list_fmap_ext.
        intros i s _. apply slide_dict_images. }
      rewrite slide_records_images_on by done.
      by rewrite <- !list_fmap_compose.
    + clear. induction per as [|ims per IH]; [done|].
      csimpl. by rewrite fmap_app, IH.
  - destruct (Hoff eq_refl) as [_ ->]. split; [done|].
    eapply Forall_impl; [by apply slide_records_images_off|].
    intros s Hnone. simpl in Hnone. by rewrite slide_dict_images, Hnone.
Qed.

End Claims.

(** * The scripts on concrete decks *)

Section Runs.
Import extract_pptx_with_images.

Lemma scenario_run :
  extract_pptx_data "deck.pptx" None (start scenario_fs)
  = (start scenario_fs, Return scenario_result).
Proof. vm_compute. reflexivity. Qed.

Lemma scenario_text_run :
  extract_pptx.extract_text_from_pptx "deck.pptx" (start scenario_fs)
  = (start scenario_fs, Return scenario_text_result).
Proof. vm_compute. reflexivity. Qed.

Lemma gallery_run_succeeds :
  dict_get "success"
    (match (extract_pptx_data "gallery.pptx" (Some "out") (start gallery_fs)).2
     with Return r => r | Raise _ => VNone end)
  = Some (VBool true).
Proof. vm_compute. reflexivity. Qed.

(** A deck whose output directory is a file: every picture fails to be
    saved, three warnings are printed, and the result is still a
    success. *)
Example unwritable_output_dir :
  let run := extract_pptx_data "gallery.pptx" (Some "gallery.pptx")
               (start gallery_fs) in
  w_fs run.1 = gallery_fs ∧ length (w_stderr run.1) = 3 ∧
  ∃ r, run.2 = Return r ∧ dict_get "success" r = Some (VBool true) ∧
       dict_get "total_images" r = Some (VInt 0).
Proof. split_and!; [vm_compute; reflexivity..|]. eexists. split_and!; reflexivity. Qed.

(** C1, counterexample.  In the scenario of the specification the first
    slide gives three fragments, the title and one per table row, so its
    [text_count] is 3 and not 2. *)
Lemma scenario_text_count_is_three :
  slide_texts scenario_slide1 = ["Intro"; "A | B"; "C | D"] ∧
  text_count (extract_text_from_slide scenario_slide1 1) = 3 ∧
  text_count (extract_text_from_slide scenario_slide1 1) ≠ 2.
Proof. split_and!; [reflexivity..|]. vm_compute. discriminate. Qed.

(** C1, as amended.  For the two-slide deck of the scenario, slide 1 has
    content ["Intro\nA | B\nC | D"] with [text_count] 3, slide 2 has
    content ["Speaker Notes: Remember X"] with [text_count] 1,
    [slides_with_text] is 2 and [full_text] is the two blocks separated by
    one blank line. *)
Theorem scenario_two_slide_deck :
  extract_text_from_slide scenario_slide1 1
  = {| slide_number := 1;
       content := "Intro" +:+ Py.nl +:+ "A | B" +:+ Py.nl +:+ "C | D";
       text_count := 3;
       slide_images := None |} ∧
  extract_text_from_slide scenario_slide2 2
  = {| slide_number := 2;
       content := "Speaker Notes: Remember X";
       text_count := 1;
       slide_images := None |} ∧
  ∃ w r,
    extract_pptx_data "deck.pptx" None (start scenario_fs) = (w, Return r) ∧
    dict_get "slides" r
    = Some (VList [slide_dict (extract_text_from_slide scenario_slide1 1);
                   slide_dict (extract_text_from_slide scenario_slide2 2)]) ∧
    dict_get "slides_with_text" r = Some (VInt 2) ∧
    dict_get "full_text" r
    = Some (VStr ("=== Slide 1 ===" +:+ Py.nl +:+ "Intro" +:+ Py.nl
                  +:+ "A | B" +:+ Py.nl +:+ "C | D" +:+ Py.nl +:+ Py.nl
                  +:+ "=== Slide 2 ===" +:+ Py.nl
                  +:+ "Speaker Notes: Remember X")).
Proof.
  split_and!; [reflexivity..|].
  exists (start scenario_fs), scenario_result.
  split_and!; [apply scenario_run|reflexivity..].
Qed.

(** C2, witness: the deck of the scenario. *)
Lemma full_text_assembly_witness :
  dict_get "success" scenario_result = Some (VBool true) ∧
  ∃ slides : list SlideData,
    dict_get "slides" scenario_result = Some (VList (slide_dict <$> slides)) ∧
    slide_number <$> slides = seq 1 (length slides) ∧
    dict_get "full_text" scenario_result = Some (VStr (spec_full_text slides)) ∧
    dict_get "total_characters" scenario_result
    = Some (VInt (Z.of_nat (String.length (spec_full_text slides)))) ∧
    dict_get "slides_with_text" scenario_result
    = Some (VInt (Z.of_nat (length (filter (λ s, content s ≠ "") slides)))).
Proof.
  split; [reflexivity|].
  apply (full_text_assembly (FS:=MemFS) "deck.pptx" None
           (start scenario_fs) (start scenario_fs) scenario_result).
  - left. vm_compute. reflexivity.
  - reflexivity.
Defined.

(** C3.  A path that does not exist, with and without an output
    directory.  python-pptx reports it with its own [PackageNotFoundError],
    which is no [FileNotFoundError]: the handler that answers
    ["File not found: <path>"] is passed over, and the result carries the
    message of the general handler, ["Error extracting PPTX: Package not
    found at '<path>'"].  The world is left as it was: nothing is written
    and the output directory is not created.  On any platform, the message
    ["File not found: <path>"] is returned only when the loader or
    [os.makedirs] raised [FileNotFoundError]. *)
Theorem missing_file_is_misreported :
  os_path_exists scenario_fs "missing.pptx" = false ∧
  os_path_isfile scenario_fs "missing.pptx" = false ∧
  Presentation scenario_fs "missing.pptx"
  = Raise (OtherException "Package not found at 'missing.pptx'") ∧
  extract_pptx_data "missing.pptx" (Some "out") (start scenario_fs)
  = (start scenario_fs,
     Return (VDict [("success", VBool false);
                    ("error",
                     VStr "Error extracting PPTX: Package not found at 'missing.pptx'")])) ∧
  extract_pptx_data "missing.pptx" None (start scenario_fs)
  = (start scenario_fs,
     Return (VDict [("success", VBool false);
                    ("error",
                     VStr "Error extracting PPTX: Package not found at 'missing.pptx'")])) ∧
  os_path_exists scenario_fs "out" = false ∧
  (extract_pptx_data "missing.pptx" (Some "out") (start scenario_fs)).2
  ≠ Return (VDict [("success", VBool false);
                   ("error", VStr "File not found: missing.pptx")]) ∧
  ∀ FS (P : Platform FS) path dir (w w' : World FS) r,
    extract_pptx_data path dir w = (w', Return r) →
    dict_get "error" r = Some (VStr ("File not found: " +:+ path)) →
    (∃ msg, Presentation (w_fs w) path = Raise (FileNotFoundError msg)) ∨
    (∃ prs d msg,
       Presentation (w_fs w) path = Return prs ∧ dir = Some d ∧
       (os_makedirs (w_fs w) d).2 = Some (FileNotFoundError msg)).
Proof.
  split_and!; [reflexivity..|vm_compute; discriminate|].
  intros FS P path dir w w' r.
  unfold extract_pptx_data, try_except, load_presentation.
  unfold mbind at 1, M_bind at 1.
  destruct (Presentation (w_fs w) path) as [prs|[msg|msg]].
  - unfold mbind at 1, M_bind at 1.
    destruct (ensure_output_dir dir w) as [w1 [[]|e]] eqn:Hdir.
    + unfold mbind at 1, M_bind at 1.
      destruct (slides_loop_returns dir 1 (prs_slides prs) [] [] w1)
        as (w2 & per & _ & -> & _).
      by intros [= <- <-].
    + intros Hrun Herr. right.
      destruct dir as [d|]; [|done]. simpl in Hdir.
      destruct (Py.truthy d); [|done].
      unfold mbind, M_bind, path_exists, makedirs in Hdir.
      destruct (os_path_exists (w_fs w) d); [done|]. simpl in Hdir.
      destruct (os_makedirs (w_fs w) d) as [fs' [e'|]] eqn:Hmk; [|done].
      simpl in Hdir. injection Hdir as <- <-.
      destruct e' as [msg|msg].
      * exists prs, d, msg. by rewrite Hmk.
      * injection Hrun as <- <-. simpl in Herr. done.
  - intros _ _. left. by exists msg.
  - intros [= <- <-] Herr. simpl in Herr. done.
Qed.

(** C4, counterexample.  The picture of three bytes ["Man"] encodes to
    ["TWFu"]; the [base64] field of its record holds the whole of it. *)
Lemma small_image_payload_is_inline :
  Py.b64encode png_small = "TWFu" ∧
  ∃ info,
    (extract_image (picture_shape png_small "image/png") 1 0 "out"
       (start {[ "out" := Directory ]})).2 = Return info ∧
    image_base64 info = "data:image/png;base64,TWFu..." ∧
    Py.occurs_in (Py.b64encode png_small) (image_base64 info) = true.
Proof.
  split; [reflexivity|].
  exists {| image_filename := "slide_1_img_1.png";
            image_path := "out/slide_1_img_1.png";
            image_content_type := "image/png";
            image_size := 3;
            image_base64 := "data:image/png;base64,TWFu..." |}.
  split_and!; vm_compute; reflexivity.
Qed.

(** C4, witness: the slide with a small and a large picture. *)
Lemma base64_preview_is_bounded_witness :
  ∃ found,
    (extract_images_from_slide gallery_slide 1 "out"
       (start {[ "out" := Directory ]})).2 = Return found ∧
    length found = 2 ∧
    Forall (λ info,
      ∃ shape image,
        shape ∈ slide_shapes gallery_slide ∧ shape_type shape = PICTURE ∧
        shape_image shape = Return image ∧
        image_size info = length (blob image) ∧
        image_base64 info
        = "data:" +:+ content_type image +:+ ";base64,"
          +:+ Py.slice_to 100 (Py.b64encode (blob image)) +:+ "..." ∧
        String.length (Py.slice_to 100 (Py.b64encode (blob image))) ≤ 100 ∧
        (Py.slice_to 100 (Py.b64encode (blob image)) = Py.b64encode (blob image)
         ↔ image_size info ≤ 75)) found.
Proof.
  eexists. split_and!; [reflexivity|reflexivity|].
  apply (base64_preview_is_bounded (FS:=MemFS) gallery_slide 1 "out"
           (start {[ "out" := Directory ]})
           (extract_images_from_slide gallery_slide 1 "out"
              (start {[ "out" := Directory ]})).1).
  vm_compute. reflexivity.
Defined.


(** C6, counterexample.  Without an output directory the result of the
    scenario still has the keys [total_images] and [images]. *)
Lemma image_fields_without_output_dir :
  ∃ w r,
    extract_pptx_data "deck.pptx" None (start scenario_fs) = (w, Return r) ∧
    dict_get "success" r = Some (VBool true) ∧
    dict_get "total_images" r = Some (VInt 0) ∧
    dict_get "images" r = Some (VList []) ∧
    "total_images" ∈ dict_keys r ∧ "images" ∈ dict_keys r.
Proof.
  exists (start scenario_fs), scenario_result.
  split_and!; [apply scenario_run|reflexivity..| |]; simpl; set_solver.
Qed.

(** C6, witness: the gallery deck with an output directory. *)
Lemma image_fields_of_result_witness :
  ∃ r,
    (extract_pptx_data "gallery.pptx" (Some "out") (start gallery_fs)).2
    = Return r ∧
    dict_get "success" r = Some (VBool true) ∧
    ∃ (slides : list SlideData) (all_images : list value),
      dict_get "slides" r = Some (VList (slide_dict <$> slides)) ∧
      slide_number <$> slides = seq 1 (length slides) ∧
      dict_get "images" r = Some (VList all_images) ∧
      dict_get "total_images" r = Some (VInt (Z.of_nat (length all_images))) ∧
      ∃ per_slide : list (list value),
        (λ s, dict_get "images" (slide_dict s)) <$> slides
        = (λ images, Some (VList images)) <$> per_slide ∧
        all_images = concat per_slide.
Proof.
  eexists. split_and!; [reflexivity|reflexivity|].
  apply (image_fields_of_result (FS:=MemFS) "gallery.pptx" (Some "out")
           (start gallery_fs)
           (extract_pptx_data "gallery.pptx" (Some "out") (start gallery_fs)).1).
  - vm_compute. reflexivity.
  - reflexivity.
Defined.

(** C7, witness: the deck of the scenario. *)
Lemma slide_numbering_witness :
  Presentation scenario_fs "deck.pptx" = Return scenario_deck ∧
  dict_get "success" scenario_result = Some (VBool true) ∧
  ∃ slides : list SlideData,
    dict_get "total_slides" scenario_result = Some (VInt 2) ∧
    dict_get "slides" scenario_result = Some (VList (slide_dict <$> slides)) ∧
    length slides = 2 ∧
    slide_number <$> slides = [1; 2] ∧
    Forall2 (λ s slide,
               content s = content (extract_text_from_slide slide (slide_number s))
               ∧ text_count s
                 = text_count (extract_text_from_slide slide (slide_number s)))
            slides [scenario_slide1; scenario_slide2].
Proof.
  split_and!; [reflexivity..|].
  apply (slide_numbering (FS:=MemFS) "deck.pptx" None (start scenario_fs)
           (start scenario_fs) scenario_deck scenario_result).
  - reflexivity.
  - vm_compute. reflexivity.
  - reflexivity.
Defined.

(** C8, witness: a group with a group inside, between two text boxes.
    The child of the group gives its fragment after the title and before
    the text box that follows; the text below the inner group is not
    extracted. *)
Lemma group_text_is_one_level_witness :
  slide_shapes group_slide
  = [text_shape TEXT_BOX "Title"] ++ nested_group :: [text_shape TEXT_BOX "After"] ∧
  shape_type nested_group = GROUP ∧
  extract_text_from_slide group_slide 1
  = {| slide_number := 1;
       content := "Title" +:+ Py.nl +:+ "Child" +:+ Py.nl +:+ "After" +:+ Py.nl
                  +:+ "Speaker Notes: Notes";
       text_count := 4;
       slide_images := None |}.
Proof.
  split_and!; [reflexivity..|].
  exact (proj1 (group_text_is_one_level group_slide 1
                  [text_shape TEXT_BOX "Title"] nested_group
                  [text_shape TEXT_BOX "After"] eq_refl eq_refl)).
Defined.

(** The same slide with the inner group emptied gives the same record. *)
Example deep_text_is_not_read :
  extract_text_from_slide (mkSlide [nested_group] false "") 1
  = extract_text_from_slide
      (mkSlide [group_shape [text_shape TEXT_BOX " Child ";
                             group_shape [];
                             text_shape TEXT_BOX "  "]] false "") 1
  ∧ content (extract_text_from_slide (mkSlide [nested_group] false "") 1)
    = "Child".
Proof. split; reflexivity. Qed.

(** C10, witness: the deck of the scenario. *)
Lemma extractors_agree_witness :
  dict_get "success" scenario_text_result = Some (VBool true) ∧
  dict_get "success" scenario_result = Some (VBool true) ∧
  dict_get "metadata" scenario_text_result = dict_get "metadata" scenario_result ∧
  dict_get "slides" scenario_text_result = dict_get "slides" scenario_result ∧
  dict_get "full_text" scenario_text_result
  = dict_get "full_text" scenario_result ∧
  dict_get "total_slides" scenario_text_result
  = dict_get "total_slides" scenario_result ∧
  dict_get "slides_with_text" scenario_text_result
  = dict_get "slides_with_text" scenario_result ∧
  dict_get "total_characters" scenario_text_result
  = dict_get "total_characters" scenario_result ∧
  start scenario_fs = start scenario_fs ∧ start scenario_fs = start scenario_fs.
Proof.
  split; [reflexivity|]. split; [reflexivity|].
  apply (extractors_agree (FS:=MemFS) "deck.pptx" (start scenario_fs)
           (start scenario_fs) (start scenario_fs)
           scenario_text_result scenario_result).
  - vm_compute. reflexivity.
  - vm_compute. reflexivity.
  - reflexivity.
  - reflexivity.
Defined.

(** ** The built-ins on small inputs *)

Example strip_both_ends :
  Py.strip ("  Intro " +:+ Py.nl) = "Intro" ∧ Py.strip "  " = "" ∧
  Py.strip "a b" = "a b".
Proof. repeat split; reflexivity. Qed.

Example b64encode_rfc4648 :
  Py.b64encode [x66] = "Zg==" ∧ Py.b64encode [x66; x6f] = "Zm8=" ∧
  Py.b64encode [x66; x6f; x6f] = "Zm9v" ∧
  Py.b64encode [x66; x6f; x6f; x62; x61; x72] = "Zm9vYmFy".
Proof. repeat split; reflexivity. Qed.

Example split_last :
  Py.split "/" "image/png" = ["image"; "png"] ∧
  Py.last_item (Py.split "/" "image/svg+xml") = "svg+xml" ∧
  Py.split "/" "image/" = ["image"; ""].
Proof. repeat split; reflexivity. Qed.

Example os_path_join_cases :
  Py.os_path_join "out" "a.png" = "out/a.png" ∧
  Py.os_path_join "out/" "a.png" = "out/a.png" ∧
  Py.os_path_join "" "a.png" = "a.png".
Proof. repeat split; reflexivity. Qed.

Example str_datetime_iso :
  str_datetime (mkDatetime 2024 1 5 10 30 0 0) = "2024-01-05 10:30:00" ∧
  str_datetime (mkDatetime 2024 11 25 9 3 7 1200)
  = "2024-11-25 09:03:07.001200".
Proof. split; reflexivity. Qed.

End Runs.

(** * Further properties of the scripts *)

(** ** The fragments of a slide *)

Section FragmentProperties.
Import extract_pptx_with_images.

Lemma fragment_nonempty o t : fragment o = Some t → t ≠ "".
Proof.
  unfold fragment. destruct o as [s|]; [|done].
  case_decide; [done|]. by intros [= <-].
Qed.

Lemma join_nonempty sep (x : string) (l : list string) :
  x ≠ "" → Py.join sep (x :: l) ≠ "".
Proof.
  intros Hx. unfold Py.join. simpl. destruct l as [|y l]; [done|].
  destruct x as [|c x]; [done|]. simpl. discriminate.
Qed.

Lemma row_fragment_nonempty row t : row_fragment row = Some t → t ≠ "".
Proof.
  unfold row_fragment.
  destruct (filter _ _) as [|cell kept] eqn:Hk; [done|].
  rewrite decide_False by done. intros [= <-].
  apply join_nonempty.
  assert (Hin : cell ∈ filter (λ cell : string, cell ≠ "") (Py.strip <$> row))
    by (rewrite Hk; left).
  by apply list_elem_of_filter in Hin as [? _].
Qed.

Lemma notes_fragment_nonempty slide t : notes_fragment slide = Some t → t ≠ "".
Proof.
  unfold notes_fragment. destruct (has_notes_slide slide); [|done].
  case_decide; [done|]. by intros [= <-].
Qed.

Lemma shape_fragments_nonempty shape :
  Forall (λ t, t ≠ "") (shape_fragments shape).
Proof.
  unfold shape_fragments. rewrite !Forall_app. split_and!.
  - destruct (fragment _) as [t|] eqn:Ht; simpl; [|done].
    constructor; [|done]. by eapply fragment_nonempty.
  - case_decide; [|done]. apply Forall_forall. intros t Hin.
    apply list_elem_of_omap in Hin as (row & _ & Hrow).
    by eapply row_fragment_nonempty.
  - case_decide; [|done]. apply Forall_forall. intros t Hin.
    apply list_elem_of_omap in Hin as (child & _ & Hchild).
    by eapply fragment_nonempty.
Qed.

Lemma slide_texts_nonempty slide :
  Forall (λ t, t ≠ "") (slide_texts slide).
Proof.
  rewrite slide_texts_fragments, Forall_app. split.
  - apply Forall_concat, Forall_fmap, Forall_forall.
    intros shape _. apply shape_fragments_nonempty.
  - destruct (notes_fragment slide) as [t|] eqn:Ht; simpl; [|done].
    constructor; [|done]. by eapply notes_fragment_nonempty.
Qed.

(** X1.  The record of a slide, for either script: its fragments are
    those of the shapes in declaration order (for each shape its own text,
    then the rows of its table from the top, then the texts of the
    children of a group), followed by the speaker notes if there are any;
    [content] joins them with newlines and [text_count] counts them. *)
Theorem text_record_is_fragments_then_notes slide n :
  extract_text_from_slide slide n
  = {| slide_number := n;
       content := Py.join Py.nl
                    (concat (shape_fragments <$> slide_shapes slide)
                     ++ option_list (notes_fragment slide));
       text_count := length (concat (shape_fragments <$> slide_shapes slide))
                     + match notes_fragment slide with Some _ => 1 | None => 0 end;
       slide_images := None |}
  ∧ extract_pptx.extract_text_from_slide slide n
    = extract_text_from_slide slide n.
Proof.
  split; [|reflexivity].
  unfold extract_text_from_slide. rewrite slide_texts_fragments.
  rewrite length_app. by destruct (notes_fragment slide).
Qed.

(** X2.  No fragment is empty, so a slide has empty [content] exactly
    when it has no fragment at all: [content == ""] if and only if
    [text_count == 0]. *)
Theorem content_empty_iff_no_fragment slide n :
  Forall (λ t, t ≠ "") (slide_texts slide) ∧
  (content (extract_text_from_slide slide n) = ""
   ↔ text_count (extract_text_from_slide slide n) = 0).
Proof.
  split; [apply slide_texts_nonempty|]. simpl.
  pose proof (slide_texts_nonempty slide) as Hall.
  destruct (slide_texts slide) as [|t texts]; [done|].
  apply Forall_cons in Hall as [Ht _]. split; [|done].
  intros Hjoin. by destruct (join_nonempty Py.nl t texts Ht).
Qed.

End FragmentProperties.

(** ** The shape of the result, and what a run does to the world *)

Section ResultProperties.
Context {FS : Type} `{!Platform FS}.
Import extract_pptx_with_images.

Lemma ensure_output_dir_stderr dir (w : World FS) :
  w_stderr (ensure_output_dir dir w).1 = w_stderr w.
Proof.
  destruct dir as [d|]; [|done]. simpl. destruct (Py.truthy d); [|done].
  unfold mbind, M_bind, path_exists, makedirs.
  destruct (os_path_exists (w_fs w) d); simpl; [done|].
  by destruct (os_makedirs (w_fs w) d) as [fs [e|]].
Qed.

(** A successful run, step by step. *)
Lemma extract_pptx_data_steps path dir (w w' : World FS) r :
  extract_pptx_data path dir w = (w', Return r) →
  dict_get "success" r = Some (VBool true) →
  ∃ prs w1 slides all_images,
    Presentation (w_fs w) path = Return prs ∧
    ensure_output_dir dir w = (w1, Return ()) ∧
    slides_loop dir 1 (prs_slides prs) [] [] w1
    = (w', Return (slides, all_images)) ∧
    r = assemble prs (metadata_of prs) slides all_images.
Proof.
  unfold extract_pptx_data, try_except, load_presentation.
  unfold mbind at 1, M_bind at 1.
  destruct (Presentation (w_fs w) path) as [prs|[msg|msg]];
    [|intros [= <- <-]; done..].
  unfold mbind at 1, M_bind at 1.
  destruct (ensure_output_dir dir w) as [w1 [[]|[msg|msg]]];
    [|intros [= <- <-]; done..].
  unfold mbind at 1, M_bind at 1.
  destruct (slides_loop_returns dir 1 (prs_slides prs) [] [] w1)
    as (w2 & per & Hl & Hrun & _).
  rewrite Hrun. intros [= <- <-] _.
  by exists prs, w1, ([] ++ slide_records dir 1 (prs_slides prs) per),
            ([] ++ concat per).
Qed.

(** Every run of [extract_pptx_data] returns a failure or a success
    dictionary. *)
Lemma extract_pptx_data_always_returns path dir (w : World FS) :
  ∃ w' r,
    extract_pptx_data path dir w = (w', Return r) ∧
    ((dict_get "success" r = Some (VBool false) ∧
      dict_keys r = ["success"; "error"] ∧
      ∃ message, dict_get "error" r = Some (VStr message))
     ∨ (dict_get "success" r = Some (VBool true) ∧
        dict_keys r = ["success"; "metadata"; "slides"; "full_text";
                       "total_slides"; "slides_with_text"; "total_characters";
                       "total_images"; "images"])).
Proof.
  unfold extract_pptx_data, try_except, load_presentation.
  unfold mbind at 1, M_bind at 1.
  destruct (Presentation (w_fs w) path) as [prs|[msg|msg]];
    [|eexists _, _; split; [done|]; left; split_and!; [done..|by eexists]..].
  unfold mbind at 1, M_bind at 1.
  destruct (ensure_output_dir dir w) as [w1 [[]|[msg|msg]]];
    [|eexists _, _; split; [done|]; left; split_and!; [done..|by eexists]..].
  unfold mbind at 1, M_bind at 1.
  destruct (slides_loop_returns dir 1 (prs_slides prs) [] [] w1)
    as (w2 & per & Hl & -> & _).
  eexists _, _; split; [done|]. right. done.
Qed.

(** X3.  [extract_pptx_data] never raises: every run returns a
    dictionary, which is either a failure with exactly the keys [success]
    and [error], or a success with exactly the nine keys of the return
    statement, in that order. *)
Theorem extract_pptx_data_result_shape path dir (w : World FS) :
  ∃ w' r,
    extract_pptx_data path dir w = (w', Return r) ∧
    ((dict_get "success" r = Some (VBool false) ∧
      dict_keys r = ["success"; "error"] ∧
      ∃ message, dict_get "error" r = Some (VStr message))
     ∨ (dict_get "success" r = Some (VBool true) ∧
        dict_keys r = ["success"; "metadata"; "slides"; "full_text";
                       "total_slides"; "slides_with_text"; "total_characters";
                       "total_images"; "images"])).
Proof. apply extract_pptx_data_always_returns. Qed.

(** X4.  [extract_text_from_pptx] never raises and has no effect on the
    file system or on [sys.stderr]; its result is a failure with exactly
    the keys [success] and [error], or a success with exactly the seven
    keys of its return statement (no [total_images], no [images]). *)
Theorem extract_text_from_pptx_result_shape path (w : World FS) :
  ∃ r,
    extract_pptx.extract_text_from_pptx path w = (w, Return r) ∧
    ((dict_get "success" r = Some (VBool false) ∧
      dict_keys r = ["success"; "error"] ∧
      ∃ message, dict_get "error" r = Some (VStr message))
     ∨ (dict_get "success" r = Some (VBool true) ∧
        dict_keys r = ["success"; "metadata"; "slides"; "full_text";
                       "total_slides"; "slides_with_text";
                       "total_characters"])).
Proof.
  rewrite extract_text_from_pptx_run. eexists. split; [done|].
  destruct (Presentation (w_fs w) path) as [prs|[msg|msg]].
  - by right.
  - left. split_and!; [done..|by eexists].
  - left. split_and!; [done..|by eexists].
Qed.

(** X5.  When the loader fails with anything but [FileNotFoundError],
    both scripts return the failure whose message is
    ["Error extracting PPTX: "] followed by the text of the exception,
    unchanged, and leave the world as it was, whatever the output
    directory argument. *)
Theorem loader_error_is_reported path dir (w : World FS) msg :
  Presentation (w_fs w) path = Raise (OtherException msg) →
  extract_pptx_data path dir w
  = (w, Return (VDict [("success", VBool false);
                       ("error", VStr ("Error extracting PPTX: " +:+ msg))]))
  ∧ extract_pptx.extract_text_from_pptx path w
    = (w, Return (VDict [("success", VBool false);
                         ("error", VStr ("Error extracting PPTX: " +:+ msg))])).
Proof.
  intros Hload. split.
  - unfold extract_pptx_data, try_except, load_presentation.
    unfold mbind at 1, M_bind at 1. by rewrite Hload.
  - by rewrite extract_text_from_pptx_run, Hload.
Qed.

(** X6.  When the output directory is missing and cannot be created, the
    run fails before any slide is read: nothing is written or printed
    beyond what [os.makedirs] itself did, and the result is a failure.  Its
    message is ["Error extracting PPTX: ..."] with the text of the
    exception, except when [os.makedirs] raised [FileNotFoundError]: then
    it is ["File not found: "] followed by the path of the input file,
    although that file was found and loaded. *)
Theorem makedirs_failure_is_fatal path d (w : World FS) prs fs' e :
  Presentation (w_fs w) path = Return prs →
  Py.truthy d = true →
  os_path_exists (w_fs w) d = false →
  os_makedirs (w_fs w) d = (fs', Some e) →
  extract_pptx_data path (Some d) w
  = (mkWorld fs' (w_stderr w),
     Return (VDict [("success", VBool false);
                    ("error",
                     VStr match e with
                          | FileNotFoundError _ => "File not found: " +:+ path
                          | OtherException msg =>
                              "Error extracting PPTX: " +:+ msg
                          end)])).
Proof.
  intros Hload Hd Hex Hmk.
  unfold extract_pptx_data, try_except, load_presentation.
  unfold mbind at 1, M_bind at 1. rewrite Hload.
  unfold mbind at 1, M_bind at 1. simpl ensure_output_dir. rewrite Hd.
  unfold mbind at 1, M_bind at 1, path_exists, makedirs. rewrite Hex. simpl.
  rewrite Hmk. by destruct e.
Qed.

End ResultProperties.

(** ** The images of a slide and of a run *)

Section ImageProperties.
Context {FS : Type} `{!Platform FS}.
Import extract_pptx_with_images.

Lemma images_loop_no_picture n dir shapes :
  filter is_picture shapes = [] →
  ∀ idx images (w : World FS),
    images_loop n dir idx shapes images w = (w, Return images).
Proof.
  induction shapes as [|shape rest IH]; intros Hnone idx images w; [done|].
  rewrite filter_cons in Hnone. rewrite images_loop_cons.
  unfold is_picture at 1 in Hnone. case_decide; [done|]. by apply IH.
Qed.

Lemma slides_loop_no_picture d idx rem acc_s acc_i (w : World FS) :
  Py.truthy d = true →
  deck_pictures rem = [] →
  slides_loop (Some d) idx rem acc_s acc_i w
  = (w, Return (acc_s ++ slide_records (Some d) idx rem
                           (replicate (length rem) []), acc_i)).
Proof.
  intros Hd. revert idx acc_s; induction rem as [|slide rem IH];
    intros idx acc_s Hnone.
  - simpl. by rewrite app_nil_r.
  - unfold deck_pictures in Hnone. rewrite bind_cons, filter_app in Hnone.
    apply app_eq_nil in Hnone as [Hslide Hrest].
    cbn [slides_loop]. rewrite Hd.
    unfold mbind at 1, M_bind at 1. unfold mbind at 1, M_bind at 1.
    unfold extract_images_from_slide.
    rewrite images_loop_no_picture by done.
    unfold mret at 1, M_ret at 1. rewrite app_nil_r.
    rewrite IH by done. cbn [length replicate slide_records].
    unfold slide_record at 1. simpl Py.truthy_opt. rewrite Hd.
    by rewrite <- app_assoc.
Qed.

(** X7.  With an output directory, a successful run on a deck without any
    picture (one without slides, for instance) still has the directory
    created when it was missing: the directory is made before the slides
    are read.  Nothing else happens to the world and no warning is printed;
    [total_images] is 0, [images] is empty, and every slide record has an
    empty [images] list. *)
Theorem deck_without_pictures path d (w w' : World FS) prs r :
  Presentation (w_fs w) path = Return prs →
  Py.truthy d = true →
  deck_pictures (prs_slides prs) = [] →
  extract_pptx_data path (Some d) w = (w', Return r) →
  dict_get "success" r = Some (VBool true) →
  w' = (if os_path_exists (w_fs w) d then w
        else mkWorld (os_makedirs (w_fs w) d).1 (w_stderr w)) ∧
  (os_path_exists (w_fs w) d = false → (os_makedirs (w_fs w) d).2 = None) ∧
  dict_get "total_images" r = Some (VInt 0) ∧
  dict_get "images" r = Some (VList []) ∧
  ∀ slides, dict_get "slides" r = Some (VList slides) →
            Forall (λ s, dict_get "images" s = Some (VList [])) slides.
Proof.
  intros Hload Hd Hnone Hrun Hok.
  destruct (extract_pptx_data_steps _ _ _ _ _ Hrun Hok)
    as (prs' & w1 & slides & all_images & Hload' & Hdir & Hloop & ->).
  assert (prs' = prs) as -> by congruence.
  rewrite slides_loop_no_picture in Hloop by done.
  injection Hloop as <- <- <-.
  assert (Hw : w1 = (if os_path_exists (w_fs w) d then w
                     else mkWorld (os_makedirs (w_fs w) d).1 (w_stderr w))
               ∧ (os_path_exists (w_fs w) d = false
                  → (os_makedirs (w_fs w) d).2 = None)).
  { simpl in Hdir. rewrite Hd in Hdir.
    unfold mbind, M_bind, path_exists, makedirs in Hdir.
    destruct (os_path_exists (w_fs w) d); simpl in Hdir.
    - by injection Hdir as <-.
    - destruct (os_makedirs (w_fs w) d) as [fs' [e|]]; [done|].
      by injection Hdir as <-. }
  destruct Hw as [Hw Hmk].
  split_and!; [done|done|apply assemble_fields..|].
  intros slides.
  rewrite (proj1 (proj2 (proj2 (assemble_fields _ _ _ _)))).
  intros [= <-]. apply Forall_fmap.
  clear -Hd. generalize 1. induction (prs_slides prs) as [|slide rem IH]; intros idx;
    simpl; constructor; [|apply IH].
  simpl. unfold slide_record. simpl. by rewrite Hd.
Qed.

Lemma slides_loop_accounting d idx rem acc_s acc_i (w w' : World FS) res :
  Py.truthy d = true →
  slides_loop (Some d) idx rem acc_s acc_i w = (w', Return res) →
  ∃ warnings,
    w_stderr w' = w_stderr w ++ warnings ∧
    length res.2 + length warnings
    = length acc_i + length (deck_pictures rem).
Proof.
  intros Hd. revert idx acc_s acc_i w; induction rem as [|slide rem IH];
    intros idx acc_s acc_i w.
  - intros [= <- <-]. exists []. simpl. by rewrite app_nil_r.
  - cbn [slides_loop]. rewrite Hd.
    unfold mbind at 1, M_bind at 1. unfold mbind at 1, M_bind at 1.
    destruct (extract_images_from_slide_returns slide idx d w)
      as (w1 & found & warns & -> & Hw & Hl).
    unfold mret at 1, M_ret at 1. intros Hrun.
    destruct (IH _ _ _ _ Hrun) as (warns' & Hw' & Hl').
    exists (warns ++ warns'). split.
    + by rewrite Hw', Hw, <- app_assoc.
    + unfold deck_pictures in *. rewrite bind_cons, filter_app.
      rewrite !length_app in *. lia.
Qed.

(** X11.  Every picture shape of the deck is accounted for.  After a
    successful run with an output directory, [total_images] plus the number
    of lines the run printed to [sys.stderr] is the number of picture
    shapes of the deck: each picture gave an image record or a warning. *)
Theorem pictures_are_accounted_for path d (w w' : World FS) prs r :
  Presentation (w_fs w) path = Return prs →
  Py.truthy d = true →
  extract_pptx_data path (Some d) w = (w', Return r) →
  dict_get "success" r = Some (VBool true) →
  ∃ (all_images : list value) (warnings : list string),
    dict_get "images" r = Some (VList all_images) ∧
    dict_get "total_images" r = Some (VInt (Z.of_nat (length all_images))) ∧
    w_stderr w' = w_stderr w ++ warnings ∧
    length all_images + length warnings
    = length (deck_pictures (prs_slides prs)).
Proof.
  intros Hload Hd Hrun Hok.
  destruct (extract_pptx_data_steps _ _ _ _ _ Hrun Hok)
    as (prs' & w1 & slides & all_images & Hload' & Hdir & Hloop & ->).
  assert (prs' = prs) as -> by congruence.
  destruct (slides_loop_accounting _ _ _ _ _ _ _ _ Hd Hloop)
    as (warns & Hw & Hl).
  pose proof (ensure_output_dir_stderr (Some d) w) as Herr.
  rewrite Hdir in Herr. simpl in Herr.
  exists (image_dict <$> all_images), warns.
  rewrite length_fmap. split_and!; [apply assemble_fields..| |].
  - by rewrite Hw, Herr.
  - simpl in Hl. lia.
Qed.

End ImageProperties.

(** ** The names of the image files *)

Section ImageNames.
Context {FS : Type} `{!Platform FS}.
Import extract_pptx_with_images.

Lemma extract_image_is_record shape n idx dir (w w1 : World FS) info :
  extract_image shape n idx dir w = (w1, Return info) →
  ∃ image, shape_image shape = Return image ∧ info = record_of dir n idx image.
Proof.
  unfold extract_image, mbind, M_bind, eval, write_file, mret, M_ret.
  destruct (shape_image shape) as [image|e]; [|done].
  destruct (open_wb_write _ _ _) as [fs [e|]]; [done|].
  intros [= <- <-]. by exists image.
Qed.

(** The records the loop adds come from picture shapes at increasing
    positions. *)
Lemma images_loop_indexed n dir shapes :
  ∀ idx images (w w' : World FS) result,
    images_loop n dir idx shapes images w = (w', Return result) →
    ∃ picks : list (nat * Image),
      result = images ++ ((λ p, record_of dir n p.1 p.2) <$> picks) ∧
      StronglySorted lt picks.*1 ∧
      Forall (λ p, idx ≤ p.1 ∧
                   ∃ shape, shapes !! (p.1 - idx) = Some shape ∧
                            shape_type shape = PICTURE ∧
                            shape_image shape = Return p.2) picks.
Proof.
  induction shapes as [|shape rest IH]; intros idx images w w' result.
  - intros [= <- <-]. exists []. rewrite app_nil_r. split_and!; by constructor.
  - rewrite images_loop_cons.
    assert (Hshift : ∀ picks : list (nat * Image),
      Forall (λ p, S idx ≤ p.1 ∧
                   ∃ shape', rest !! (p.1 - S idx) = Some shape' ∧
                             shape_type shape' = PICTURE ∧
                             shape_image shape' = Return p.2) picks →
      Forall (λ p, idx ≤ p.1 ∧
                   ∃ shape', (shape :: rest) !! (p.1 - idx) = Some shape' ∧
                             shape_type shape' = PICTURE ∧
                             shape_image shape' = Return p.2) picks).
    { intros picks Hpicks. eapply Forall_impl; [exact Hpicks|].
      intros p (Hle & shape' & Hl & Hrest).
      split; [lia|]. exists shape'. split; [|done].
      by replace (p.1 - idx) with (S (p.1 - S idx)) by lia. }
    case_decide as Hp.
    + destruct (extract_image shape n idx dir w) as [w1 [info|e]] eqn:Himg.
      * intros Hrun. destruct (IH _ _ _ _ _ Hrun) as (picks & -> & Hs & Hall).
        destruct (extract_image_is_record _ _ _ _ _ _ _ Himg)
          as (image & Hi & ->).
        exists ((idx, image) :: picks). split_and!.
        -- by rewrite <- app_assoc.
        -- csimpl. constructor; [done|]. apply Forall_fmap.
           eapply Forall_impl; [exact Hall|]. intros p [Hle _]. simpl. lia.
        -- constructor; [|by apply Hshift]. simpl. split; [done|].
           exists shape. by rewrite Nat.sub_diag.
      * intros Hrun. destruct (IH _ _ _ _ _ Hrun) as (picks & -> & Hs & Hall).
        exists picks. split_and!; [done..|by apply Hshift].
    + intros Hrun. destruct (IH _ _ _ _ _ Hrun) as (picks & -> & Hs & Hall).
      exists picks. split_and!; [done..|by apply Hshift].
Qed.

(** X8.  The image records of a slide follow its picture shapes: they
    are the records ([record_of]) of picture shapes of the slide whose bytes
    could be read, in increasing order of their position among the shapes.
    The record of the shape at position [i] (from 0) is named
    [slide_<n>_img_<i+1>.<ext>], where [ext] is what follows the last ["/"]
    of the content type, or [png] when it has none; its [path] joins the
    output directory and that name, [size] is the number of bytes and
    [content_type] the declared type. *)
Theorem image_records_follow_the_shapes slide n dir (w w' : World FS) found :
  extract_images_from_slide slide n dir w = (w', Return found) →
  ∃ picks : list (nat * Image),
    found = (λ p, record_of dir n p.1 p.2) <$> picks ∧
    StronglySorted lt picks.*1 ∧
    Forall (λ p, ∃ shape, slide_shapes slide !! p.1 = Some shape ∧
                          shape_type shape = PICTURE ∧
                          shape_image shape = Return p.2 ∧
                          image_filename (record_of dir n p.1 p.2)
                          = "slide_" +:+ pretty n +:+ "_img_" +:+ pretty (p.1 + 1)
                            +:+ "." +:+ extension_of (content_type p.2) ∧
                          image_size (record_of dir n p.1 p.2)
                          = length (blob p.2)) picks.
Proof.
  intros Hrun. apply images_loop_indexed in Hrun as (picks & -> & Hs & Hall).
  exists picks. split_and!; [done..|].
  eapply Forall_impl; [exact Hall|].
  intros p (_ & shape & Hl & Hp & Hi). exists shape.
  rewrite Nat.sub_0_r in Hl. by split_and!.
Qed.

End ImageNames.

(** ** The metadata of the result *)

Section Metadata.
Context {FS : Type} `{!Platform FS}.
Import extract_pptx_with_images.

(** X12.  The metadata of a successful result, for either script: its
    eight keys in order; [slide_count] equals [total_slides]; the five
    text fields are strings, never null, empty when the property is absent
    or empty, and the dates are rendered by [str]; the slide dimensions are
    passed through and may be null. *)
Theorem metadata_fields path dir (w w' : World FS) prs r :
  Presentation (w_fs w) path = Return prs →
  extract_pptx_data path dir w = (w', Return r)
  ∨ extract_pptx.extract_text_from_pptx path w = (w', Return r) →
  dict_get "success" r = Some (VBool true) →
  ∃ metadata,
    dict_get "metadata" r = Some metadata ∧
    dict_keys metadata
    = ["title"; "author"; "subject"; "created"; "modified"; "slide_count";
       "slide_width"; "slide_height"] ∧
    dict_get "slide_count" metadata = dict_get "total_slides" r ∧
    dict_get "slide_count" metadata
    = Some (VInt (Z.of_nat (length (prs_slides prs)))) ∧
    dict_get "title" metadata
    = Some (VStr (default "" (title (core_properties prs)))) ∧
    dict_get "author" metadata
    = Some (VStr (default "" (author (core_properties prs)))) ∧
    dict_get "subject" metadata
    = Some (VStr (default "" (subject (core_properties prs)))) ∧
    dict_get "created" metadata
    = Some (VStr (from_option str_datetime "" (created (core_properties prs)))) ∧
    dict_get "modified" metadata
    = Some (VStr (from_option str_datetime "" (modified (core_properties prs)))) ∧
    dict_get "slide_width" metadata = Some (opt_int (slide_width prs)) ∧
    dict_get "slide_height" metadata = Some (opt_int (slide_height prs)).
Proof.
  assert (Hor : ∀ o, Py.or_empty o = default "" o).
  { intros [[|c s]|]; done. }
  intros Hload [Hrun|Hrun] Hok.
  - destruct (extract_pptx_data_success _ _ _ _ _ Hrun Hok)
      as (prs' & per & Hload' & _ & -> & _).
    assert (prs' = prs) as -> by congruence.
    exists (metadata_of prs). unfold metadata_of.
    rewrite !Hor. split_and!; reflexivity.
  - rewrite extract_text_from_pptx_run, Hload in Hrun.
    injection Hrun as <- <-.
    exists (extract_pptx.metadata_of prs). unfold extract_pptx.metadata_of.
    rewrite !Hor. split_and!; reflexivity.
Qed.

(** ** The command lines *)



End Metadata.

(** ** The files a run writes *)

Section WrittenFiles.
Context {FS : Type} `{!Platform FS}.
Import extract_pptx_with_images.

#[local] Existing Instance logging.

Lemma simulates_ret {A} (a : A) : simulates (FS:=FS) (mret a) (mret a).
Proof. done. Qed.

Lemma simulates_bind {A B} (m_log : M (Logged FS) A) (m : M FS A)
    (f_log : A → M (Logged FS) B) (f : A → M FS B) :
  simulates (FS:=FS) m_log m → (∀ a, simulates (FS:=FS) (f_log a) (f a)) →
  simulates (FS:=FS) (m_log ≫= f_log) (m ≫= f).
Proof.
  intros Hm Hf w. unfold mbind, M_bind. rewrite Hm.
  destruct (m_log w) as [w' [a|e]]; simpl; [apply Hf|done].
Qed.

Lemma simulates_try {A} (m_log : M (Logged FS) A) (m : M FS A)
    (h_log : exn → M (Logged FS) A) (h : exn → M FS A) :
  simulates (FS:=FS) m_log m → (∀ e, simulates (FS:=FS) (h_log e) (h e)) →
  simulates (FS:=FS) (try_except m_log h_log) (try_except m h).
Proof.
  intros Hm Hh w. unfold try_except. rewrite Hm.
  destruct (m_log w) as [w' [a|e]]; simpl; [done|apply Hh].
Qed.

Lemma simulates_write path data :
  simulates (FS:=FS) (write_file path data) (write_file path data).
Proof.
  intros w. unfold write_file. simpl.
  by destruct (open_wb_write (w_fs w).1 path data) as [fs r].
Qed.

Lemma simulates_makedirs path :
  simulates (FS:=FS) (makedirs path) (makedirs path).
Proof.
  intros w. unfold makedirs. simpl.
  by destruct (os_makedirs (w_fs w).1 path) as [fs r].
Qed.

Lemma simulates_extract_image shape n idx dir :
  simulates (FS:=FS) (extract_image shape n idx dir)
            (extract_image shape n idx dir).
Proof.
  unfold extract_image. apply simulates_bind; [done|]. intros image.
  apply simulates_bind; [apply simulates_write|]. intros _.
  apply simulates_ret.
Qed.

Lemma simulates_images_loop n dir shapes :
  ∀ idx images,
    simulates (FS:=FS) (images_loop n dir idx shapes images)
              (images_loop n dir idx shapes images).
Proof.
  induction shapes as [|shape rest IH]; intros idx images; [done|].
  cbn [images_loop]. apply simulates_bind; [|intros; apply IH].
  case_decide; [|done].
  apply simulates_try.
  - apply simulates_bind; [apply simulates_extract_image|done].
  - intros e. by apply simulates_bind.
Qed.

Lemma simulates_slides_loop dir rem :
  ∀ idx acc_s acc_i,
    simulates (FS:=FS) (slides_loop dir idx rem acc_s acc_i)
              (slides_loop dir idx rem acc_s acc_i).
Proof.
  induction rem as [|slide rem IH]; intros idx acc_s acc_i; [done|].
  cbn [slides_loop]. apply simulates_bind; [|intros [sd ims]; apply IH].
  destruct dir as [d|]; [|done]. destruct (Py.truthy d); [|done].
  apply simulates_bind; [|done]. apply simulates_images_loop.
Qed.

Lemma simulates_ensure_output_dir dir :
  simulates (FS:=FS) (ensure_output_dir dir) (ensure_output_dir dir).
Proof.
  destruct dir as [d|]; [|done]. simpl. destruct (Py.truthy d); [|done].
  apply simulates_bind; [done|]. intros [|]; [done|]. apply simulates_makedirs.
Qed.

Lemma simulates_extract_pptx_data path dir :
  simulates (FS:=FS) (extract_pptx_data path dir)
            (extract_pptx_data path dir).
Proof.
  unfold extract_pptx_data. apply simulates_try.
  - apply simulates_bind; [done|]. intros prs.
    apply simulates_bind; [apply simulates_ensure_output_dir|]. intros _.
    apply simulates_bind; [apply simulates_slides_loop|]. by intros [slides ims].
  - by intros [msg|msg].
Qed.

(** *** What is added to the record *)

Lemma extract_image_written shape n idx dir (w : World (Logged FS)) :
  written (extract_image shape n idx dir w).1
  = written w
    ++ match shape_image shape with
       | Return image => [file_of dir (n, idx, image)]
       | Raise _ => []
       end.
Proof.
  rewrite extract_image_cases.
  destruct (shape_image shape) as [image|e]; [|by rewrite app_nil_r].
  unfold written. simpl.
  by destruct (open_wb_write (w_fs w).1 _ _) as [fs r].
Qed.

Lemma images_loop_written n dir shapes :
  ∀ idx images (w w' : World (Logged FS)) result,
    images_loop n dir idx shapes images w = (w', Return result) →
    ∃ attempts picks : list (nat * Image),
      written w' = written w ++ ((λ a, file_of dir (n, a.1, a.2)) <$> attempts) ∧
      result = images ++ ((λ p, record_of dir n p.1 p.2) <$> picks) ∧
      picks `sublist_of` attempts ∧
      StronglySorted lt attempts.*1 ∧
      Forall (λ a, idx ≤ a.1) attempts.
Proof.
  induction shapes as [|shape rest IH]; intros idx images w w' result.
  - intros [= <- <-]. exists [], []. rewrite !app_nil_r.
    split_and!; [done..|constructor|constructor|constructor].
  - rewrite images_loop_cons. case_decide as Hp.
    + pose proof (extract_image_written shape n idx dir w) as Hlog.
      destruct (extract_image shape n idx dir w) as [w1 [info|e]] eqn:Himg;
        simpl in Hlog.
      * destruct (extract_image_is_record _ _ _ _ _ _ _ Himg)
          as (image & Hi & ->).
        rewrite Hi in Hlog.
        intros Hrun.
        destruct (IH _ _ _ _ _ Hrun) as (att & picks & Hw & -> & Hsub & Hs & Hge).
        exists ((idx, image) :: att), ((idx, image) :: picks). split_and!.
        -- rewrite Hw, Hlog, <- app_assoc. done.
        -- by rewrite <- app_assoc.
        -- by apply sublist_skip.
        -- csimpl. constructor; [done|]. apply Forall_fmap.
           eapply Forall_impl; [exact Hge|]. intros a Ha. simpl in *. lia.
        -- constructor; [simpl; lia|].
           eapply Forall_impl; [exact Hge|]. intros a Ha. simpl in *. lia.
      * intros Hrun.
        destruct (IH _ _ _ _ _ Hrun) as (att & picks & Hw & -> & Hsub & Hs & Hge).
        change (written (mkWorld (w_fs w1) _)) with (written w1) in Hw.
        destruct (shape_image shape) as [image|e'].
        -- exists ((idx, image) :: att), picks. split_and!.
           ++ rewrite Hw, Hlog, <- app_assoc. done.
           ++ done.
           ++ by apply sublist_cons.
           ++ csimpl. constructor; [done|]. apply Forall_fmap.
              eapply Forall_impl; [exact Hge|]. intros a Ha. simpl in *. lia.
           ++ constructor; [simpl; lia|].
              eapply Forall_impl; [exact Hge|]. intros a Ha. simpl in *. lia.
        -- exists att, picks. rewrite app_nil_r in Hlog. split_and!.
           ++ by rewrite Hw, Hlog.
           ++ done.
           ++ done.
           ++ done.
           ++ eapply Forall_impl; [exact Hge|]. intros a Ha. simpl in *. lia.
    + intros Hrun.
      destruct (IH _ _ _ _ _ Hrun) as (att & picks & Hw & -> & Hsub & Hs & Hge).
      exists att, picks. split_and!; [done..|].
      eapply Forall_impl; [exact Hge|]. intros a Ha. simpl in *. lia.
Qed.

Lemma slides_loop_written d idx rem acc_s acc_i (w w' : World (Logged FS)) res :
  Py.truthy d = true →
  slides_loop (Some d) idx rem acc_s acc_i w = (w', Return res) →
  ∃ attempts picks : list (nat * nat * Image),
    written w' = written w ++ (file_of d <$> attempts) ∧
    res.2 = acc_i ++ ((λ p, record_of d p.1.1 p.1.2 p.2) <$> picks) ∧
    picks `sublist_of` attempts ∧
    NoDup attempts.*1 ∧
    Forall (λ a, idx ≤ a.1.1) attempts.
Proof.
  intros Hd. revert idx acc_s acc_i w; induction rem as [|slide rem IH];
    intros idx acc_s acc_i w.
  - intros [= <- <-]. exists [], []. simpl. rewrite !app_nil_r.
    split_and!; [done..|constructor|constructor|constructor].
  - cbn [slides_loop]. rewrite Hd.
    unfold mbind at 1, M_bind at 1. unfold mbind at 1, M_bind at 1.
    destruct (extract_images_from_slide_returns slide idx d w)
      as (w1 & found & warns & Himg & _).
    rewrite Himg. unfold mret at 1, M_ret at 1. intros Hrun.
    apply images_loop_written
      in Himg as (att & picks & Hw & Hfound & Hsub & Hsorted & _).
    simpl in Hfound. subst found.
    destruct (IH _ _ _ _ Hrun) as (att' & picks' & Hw' & Hres & Hsub' & Hnd & Hge).
    exists (((λ a : nat * Image, (idx, a.1, a.2)) <$> att) ++ att'),
           (((λ a : nat * Image, (idx, a.1, a.2)) <$> picks) ++ picks').
    split_and!.
    + rewrite Hw', Hw, fmap_app, <- app_assoc, <- list_fmap_compose. done.
    + rewrite Hres, fmap_app, <- app_assoc, <- list_fmap_compose. done.
    + apply sublist_app; [by apply fmap_sublist|done].
    + rewrite fmap_app. apply NoDup_app. split_and!; [| |done].
      * apply strictly_increasing_NoDup in Hsorted.
        rewrite <- list_fmap_compose.
        replace (fst ∘ (λ a : nat * Image, (idx, a.1, a.2)))
          with ((λ i : nat, (idx, i)) ∘ (fst : nat * Image → nat)) by done.
        rewrite list_fmap_compose.
        apply NoDup_fmap_2; [|done]. by intros i j [= ->].
      * intros k Hk Hk'. rewrite <- list_fmap_compose in Hk.
        apply list_elem_of_fmap in Hk as (a & -> & _).
        apply list_elem_of_fmap in Hk' as (a' & Heq & Ha').
        rewrite Forall_forall in Hge. specialize (Hge _ Ha').
        simpl in Heq. rewrite <- Heq in Hge. simpl in Hge. lia.
    + apply Forall_app. split.
      * apply Forall_fmap, Forall_forall. intros a _. simpl. lia.
      * eapply Forall_impl; [exact Hge|]. intros a Ha. simpl in Ha. lia.
Qed.

Lemma ensure_output_dir_written dir (w : World (Logged FS)) :
  written (ensure_output_dir dir w).1 = written w.
Proof.
  destruct dir as [d|]; [|done]. simpl. destruct (Py.truthy d); [|done].
  unfold mbind, M_bind, path_exists, makedirs. simpl.
  destruct (os_path_exists (w_fs w).1 d); simpl; [done|].
  by destruct (os_makedirs (w_fs w).1 d) as [fs [e|]].
Qed.

(** The files of a whole run with an output directory: one for each
    picture whose bytes could be read, at pairwise distinct positions
    (slide number, shape index); the images of a successful result are the
    records of some of them, in the same order. *)
Lemma extract_pptx_data_written path d (w : World (Logged FS)) :
  Py.truthy d = true →
  ∃ attempts picks : list (nat * nat * Image),
    written (extract_pptx_data path (Some d) w).1
    = written w ++ (file_of d <$> attempts) ∧
    picks `sublist_of` attempts ∧
    NoDup attempts.*1 ∧
    ∀ r, (extract_pptx_data path (Some d) w).2 = Return r →
         dict_get "success" r = Some (VBool true) →
         dict_get "images" r
         = Some (VList (image_dict
                        <$> ((λ p, record_of d p.1.1 p.1.2 p.2) <$> picks))).
Proof.
  intros Hd.
  destruct (extract_pptx_data path (Some d) w) as [w' o] eqn:Hrun. simpl.
  assert (Hnone : written w' = written w →
            (∀ r, o = Return r → dict_get "success" r ≠ Some (VBool true)) →
            ∃ attempts picks : list (nat * nat * Image),
              written w' = written w ++ (file_of d <$> attempts) ∧
              picks `sublist_of` attempts ∧
              NoDup attempts.*1 ∧
              ∀ r, o = Return r →
                   dict_get "success" r = Some (VBool true) →
                   dict_get "images" r
                   = Some (VList (image_dict
                                  <$> ((λ p, record_of d p.1.1 p.1.2 p.2)
                                       <$> picks)))).
  { intros Hw Hfail. exists [], []. simpl. rewrite app_nil_r.
    split_and!; [done|done|constructor|].
    intros r Hr Hok. by destruct (Hfail r Hr). }
  revert Hrun. unfold extract_pptx_data, try_except, load_presentation.
  unfold mbind at 1, M_bind at 1.
  destruct (Presentation (w_fs w) path) as [prs|[msg|msg]];
    [|intros [= <- <-]; apply Hnone; [done|by intros r [= <-]]..].
  unfold mbind at 1, M_bind at 1.
  pose proof (ensure_output_dir_written (Some d) w) as Hdir.
  destruct (ensure_output_dir (Some d) w) as [w1 [[]|[msg|msg]]];
    simpl in Hdir;
    [|intros [= <- <-]; apply Hnone; [done|by intros r [= <-]]..].
  unfold mbind at 1, M_bind at 1.
  destruct (slides_loop_returns (Some d) 1 (prs_slides prs) [] [] w1)
    as (w2 & per & _ & Hloop & _).
  rewrite Hloop. intros [= <- <-]. clear Hnone.
  apply slides_loop_written in Hloop
    as (attempts & picks & Hw & Hres & Hsub & Hnd & _); [|done].
  simpl in Hres. exists attempts, picks.
  split_and!; [by rewrite Hw, Hdir|done|done|].
  intros r [= <-] _. rewrite Hres. apply assemble_fields.
Qed.

Lemma file_of_path d (a : nat * nat * Image) :
  (file_of d a).1
  = under d (image_name a.1.1 a.1.2 (extension_of (content_type a.2))).
Proof. by apply os_path_join_under. Qed.

Lemma file_paths_NoDup d (attempts : list (nat * nat * Image)) :
  NoDup attempts.*1 → NoDup (file_of d <$> attempts).*1.
Proof.
  intros Hnd. rewrite <- list_fmap_compose.
  eapply (NoDup_by_keys (λ (a : nat * nat * Image) k, a.1 = k));
    [|exact Hnd|].
  - apply Forall2_fmap_r, Forall_Forall2_diag, Forall_forall. done.
  - intros a b x y <- <- Hpath. simpl in Hpath.
    rewrite !os_path_join_under in Hpath by reflexivity.
    apply (inj (String.app _)) in Hpath.
    apply image_name_inj in Hpath as (Hn & Hi & _).
    destruct a as [[n i] ia], b as [[n' i'] ib]. simpl in *. by subst.
Qed.

Lemma record_names_NoDup d (picks : list (nat * nat * Image)) :
  NoDup picks.*1 →
  NoDup (image_filename <$> ((λ p, record_of d p.1.1 p.1.2 p.2) <$> picks)) ∧
  NoDup (image_path <$> ((λ p, record_of d p.1.1 p.1.2 p.2) <$> picks)).
Proof.
  intros Hnd. rewrite <- !list_fmap_compose. split.
  - eapply (NoDup_by_keys (λ (a : nat * nat * Image) k, a.1 = k));
      [|exact Hnd|].
    + apply Forall2_fmap_r, Forall_Forall2_diag, Forall_forall. done.
    + intros a b x y <- <- Hname. simpl in Hname.
      apply image_name_inj in Hname as (Hn & Hi & _).
      destruct a as [[n i] ia], b as [[n' i'] ib]. simpl in *. by subst.
  - apply (file_paths_NoDup d) in Hnd.
    by rewrite <- list_fmap_compose in Hnd.
Qed.

(** X9.  Every file a run writes lies directly under the output
    directory.  On a platform that keeps a record of the calls of
    [open(path, 'wb').write(data)], failed ones included, a run with an
    output directory does what it does without the record, and each path
    it adds to the record is the output directory, a ["/"] unless the
    directory ends with one, and a name without any ["/"], whatever the
    content types of the pictures.  In a successful result every image
    record names such a file: its [filename] has no ["/"], its [path] is
    that name under the output directory, and the record of written files
    has this path with as many bytes as [size] says. *)
Theorem image_files_stay_in_output_dir path d (w : World (Logged FS)) :
  Py.truthy d = true →
  extract_pptx_data path (Some d) (erase w)
  = (erase (extract_pptx_data path (Some d) w).1,
     (extract_pptx_data path (Some d) w).2) ∧
  ∃ files,
    written (extract_pptx_data path (Some d) w).1 = written w ++ files ∧
    Forall (λ file, ∃ name, Py.contains "/" name = false ∧
                            file.1 = under d name) files ∧
    ∀ r, (extract_pptx_data path (Some d) w).2 = Return r →
         dict_get "success" r = Some (VBool true) →
         ∃ all_images : list ImageInfo,
           dict_get "images" r = Some (VList (image_dict <$> all_images)) ∧
           Forall (λ info,
             Py.contains "/" (image_filename info) = false ∧
             image_path info = under d (image_filename info) ∧
             ∃ data, (image_path info, data) ∈ files ∧
                     length data = image_size info) all_images.
Proof.
  intros Hd. split; [apply simulates_extract_pptx_data|].
  destruct (extract_pptx_data_written path d w Hd)
    as (attempts & picks & Hw & Hsub & _ & Himages).
  exists (file_of d <$> attempts). split_and!; [done| |].
  - apply Forall_fmap, Forall_forall. intros a _.
    exists (image_name a.1.1 a.1.2 (extension_of (content_type a.2))).
    split; [apply image_name_no_slash|apply file_of_path].
  - intros r Hr Hok. eexists. split; [by apply Himages|].
    apply Forall_fmap, Forall_forall. intros p Hp.
    split_and!; [apply image_name_no_slash|by apply os_path_join_under|].
    exists (blob p.2). split; [|done].
    apply list_elem_of_fmap. exists p. split; [done|].
    by eapply sublist_subseteq.
Qed.

(** X10.  No file of a run is written twice.  On a platform that keeps a
    record of the calls of [open(path, 'wb').write(data)], failed ones
    included, the paths a run with an output directory adds to the record
    are pairwise distinct; in a successful result no two image records have
    the same [filename] or the same [path], and the [path] of every image
    record is one of the paths written. *)
Theorem image_files_are_distinct path d (w : World (Logged FS)) :
  Py.truthy d = true →
  ∃ files,
    written (extract_pptx_data path (Some d) w).1 = written w ++ files ∧
    NoDup files.*1 ∧
    ∀ r, (extract_pptx_data path (Some d) w).2 = Return r →
         dict_get "success" r = Some (VBool true) →
         ∃ all_images : list ImageInfo,
           dict_get "images" r = Some (VList (image_dict <$> all_images)) ∧
           NoDup (image_filename <$> all_images) ∧
           NoDup (image_path <$> all_images) ∧
           image_path <$> all_images ⊆ files.*1.
Proof.
  intros Hd.
  destruct (extract_pptx_data_written path d w Hd)
    as (attempts & picks & Hw & Hsub & Hnd & Himages).
  exists (file_of d <$> attempts).
  split_and!; [done|by apply file_paths_NoDup|].
  intros r Hr Hok. eexists. split; [by apply Himages|].
  assert (Hpicks : NoDup picks.*1).
  { eapply sublist_NoDup; [exact Hnd|]. by apply fmap_sublist. }
  destruct (record_names_NoDup d picks Hpicks) as [Hnames Hpaths].
  split_and!; [done|done|].
  rewrite <- !list_fmap_compose.
  apply sublist_subseteq. by apply fmap_sublist.
Qed.

End WrittenFiles.

(** ** The further properties on concrete decks *)

Section MoreRuns.
Import extract_pptx_with_images.

(** X5, witness: a file that is no package. *)
Lemma loader_error_is_reported_witness :
  Presentation ({[ "notes.txt" := DataFile [] ]} : MemFS) "notes.txt"
  = Raise (OtherException "Package not found at 'notes.txt'") ∧
  extract_pptx_data "notes.txt" (Some "out")
    (start {[ "notes.txt" := DataFile [] ]})
  = (start {[ "notes.txt" := DataFile [] ]},
     Return (VDict [("success", VBool false);
                    ("error",
                     VStr "Error extracting PPTX: Package not found at 'notes.txt'")])).
Proof.
  split; [reflexivity|].
  apply (loader_error_is_reported (FS:=MemFS) "notes.txt" (Some "out")
           (start {[ "notes.txt" := DataFile [] ]})
           "Package not found at 'notes.txt'").
  reflexivity.
Defined.

(** X6, witness: the deck of the scenario where no directory can be
    made; the message names the input file, which was found. *)
Lemma makedirs_failure_is_fatal_witness :
  @Presentation MemFS no_mkdir_platform scenario_fs "deck.pptx"
  = Return scenario_deck ∧
  @extract_pptx_data MemFS no_mkdir_platform "deck.pptx" (Some "out")
    (start scenario_fs)
  = (start scenario_fs,
     Return (VDict [("success", VBool false);
                    ("error", VStr "File not found: deck.pptx")])).
Proof.
  split; [reflexivity|].
  apply (@makedirs_failure_is_fatal MemFS no_mkdir_platform "deck.pptx" "out"
           (start scenario_fs) scenario_deck scenario_fs
           (FileNotFoundError "[Errno 2] No such file or directory: 'out'"));
    reflexivity.
Defined.

(** X7, witness: the deck of the scenario has no picture; the directory
    is made all the same. *)
Lemma deck_without_pictures_witness :
  deck_pictures (prs_slides scenario_deck) = [] ∧
  os_path_exists scenario_fs "out" = false ∧
  dict_get "success"
    (result_of (extract_pptx_data "deck.pptx" (Some "out") (start scenario_fs)))
  = Some (VBool true) ∧
  (extract_pptx_data "deck.pptx" (Some "out") (start scenario_fs)).1
  = start (<["out" := Directory]> scenario_fs) ∧
  (os_path_exists scenario_fs "out" = false →
   (os_makedirs scenario_fs "out").2 = None) ∧
  dict_get "total_images"
    (result_of (extract_pptx_data "deck.pptx" (Some "out") (start scenario_fs)))
  = Some (VInt 0) ∧
  dict_get "images"
    (result_of (extract_pptx_data "deck.pptx" (Some "out") (start scenario_fs)))
  = Some (VList []) ∧
  ∀ slides,
    dict_get "slides"
      (result_of (extract_pptx_data "deck.pptx" (Some "out") (start scenario_fs)))
    = Some (VList slides) →
    Forall (λ s, dict_get "images" s = Some (VList [])) slides.
Proof.
  split; [reflexivity|]. split; [reflexivity|]. split; [reflexivity|].
  refine (deck_without_pictures (FS:=MemFS) "deck.pptx" "out"
            (start scenario_fs)
            (extract_pptx_data "deck.pptx" (Some "out") (start scenario_fs)).1
            scenario_deck
            (result_of
               (extract_pptx_data "deck.pptx" (Some "out") (start scenario_fs)))
            eq_refl eq_refl eq_refl _ eq_refl).
  vm_compute. reflexivity.
Defined.

(** X8, witness: the gallery slide; the pictures at positions 1 and 3
    give the files 2 and 4, the linked picture at position 2 gives none. *)
Lemma image_records_follow_the_shapes_witness :
  ∃ found,
    (extract_images_from_slide gallery_slide 1 "out"
       (start {[ "out" := Directory ]})).2 = Return found ∧
    image_filename <$> found = ["slide_1_img_2.png"; "slide_1_img_4.jpeg"] ∧
    ∃ picks : list (nat * Image),
      found = (λ p, record_of "out" 1 p.1 p.2) <$> picks ∧
      StronglySorted lt picks.*1 ∧
      Forall (λ p, ∃ shape, slide_shapes gallery_slide !! p.1 = Some shape ∧
                            shape_type shape = PICTURE ∧
                            shape_image shape = Return p.2 ∧
                            image_filename (record_of "out" 1 p.1 p.2)
                            = "slide_" +:+ pretty 1 +:+ "_img_"
                              +:+ pretty (p.1 + 1) +:+ "."
                              +:+ extension_of (content_type p.2) ∧
                            image_size (record_of "out" 1 p.1 p.2)
                            = length (blob p.2)) picks.
Proof.
  eexists. split_and!; [reflexivity|reflexivity|].
  apply (image_records_follow_the_shapes (FS:=MemFS) gallery_slide 1 "out"
           (start {[ "out" := Directory ]})
           (extract_images_from_slide gallery_slide 1 "out"
              (start {[ "out" := Directory ]})).1).
  vm_compute. reflexivity.
Defined.

(** X9, witness: a picture whose content type has several separators;
    its file is written under the output directory all the same. *)
Lemma image_files_stay_in_output_dir_witness :
  written (logged_run "odd.pptx" (Some "out") odd_type_fs).1
  = [("out/slide_1_img_1.x", png_small)] ∧
  extract_pptx_data "odd.pptx" (Some "out") (start odd_type_fs)
  = (erase (logged_run "odd.pptx" (Some "out") odd_type_fs).1,
     (logged_run "odd.pptx" (Some "out") odd_type_fs).2) ∧
  ∃ files,
    written (logged_run "odd.pptx" (Some "out") odd_type_fs).1 = [] ++ files ∧
    Forall (λ file, ∃ name, Py.contains "/" name = false ∧
                            file.1 = under "out" name) files ∧
    ∀ r, (logged_run "odd.pptx" (Some "out") odd_type_fs).2 = Return r →
         dict_get "success" r = Some (VBool true) →
         ∃ all_images : list ImageInfo,
           dict_get "images" r = Some (VList (image_dict <$> all_images)) ∧
           Forall (λ info,
             Py.contains "/" (image_filename info) = false ∧
             image_path info = under "out" (image_filename info) ∧
             ∃ data, (image_path info, data) ∈ files ∧
                     length data = image_size info) all_images.
Proof.
  split; [reflexivity|].
  apply (image_files_stay_in_output_dir (FS:=MemFS) "odd.pptx" "out"
           (start_logged odd_type_fs)).
  reflexivity.
Defined.

(** X10, witness: the gallery deck; two files are written, under two
    names. *)
Lemma image_files_are_distinct_witness :
  (written (logged_run "gallery.pptx" (Some "out") galleries_fs).1).*1
  = ["out/slide_1_img_2.png"; "out/slide_1_img_4.jpeg"] ∧
  ∃ files,
    written (logged_run "gallery.pptx" (Some "out") galleries_fs).1
    = [] ++ files ∧
    NoDup files.*1 ∧
    ∀ r, (logged_run "gallery.pptx" (Some "out") galleries_fs).2 = Return r →
         dict_get "success" r = Some (VBool true) →
         ∃ all_images : list ImageInfo,
           dict_get "images" r = Some (VList (image_dict <$> all_images)) ∧
           NoDup (image_filename <$> all_images) ∧
           NoDup (image_path <$> all_images) ∧
           image_path <$> all_images ⊆ files.*1.
Proof.
  split; [reflexivity|].
  apply (image_files_are_distinct (FS:=MemFS) "gallery.pptx" "out"
           (start_logged galleries_fs)).
  reflexivity.
Defined.

(** With a regular file for output directory no picture can be saved; the
    record still has the two attempts, and the result has no image. *)
Example failed_writes_are_recorded :
  (written (logged_run "gallery.pptx" (Some "taken") galleries_fs).1).*1
  = ["taken/slide_1_img_2.png"; "taken/slide_1_img_4.jpeg"] ∧
  dict_get "total_images"
    (result_of (logged_run "gallery.pptx" (Some "taken") galleries_fs))
  = Some (VInt 0) ∧
  length (w_stderr (logged_run "gallery.pptx" (Some "taken") galleries_fs).1)
  = 3.
Proof. split_and!; vm_compute; reflexivity. Qed.

(** X11, witness: the gallery deck has three picture shapes; two give a
    record and one a warning. *)
Lemma pictures_are_accounted_for_witness :
  length (deck_pictures (prs_slides gallery_deck)) = 3 ∧
  ∃ r,
    (extract_pptx_data "gallery.pptx" (Some "out") (start gallery_fs)).2
    = Return r ∧
    dict_get "total_images" r = Some (VInt 2) ∧
    ∃ (all_images : list value) (warnings : list string),
      dict_get "images" r = Some (VList all_images) ∧
      dict_get "total_images" r = Some (VInt (Z.of_nat (length all_images))) ∧
      w_stderr (extract_pptx_data "gallery.pptx" (Some "out")
                  (start gallery_fs)).1
      = w_stderr (start gallery_fs) ++ warnings ∧
      length all_images + length warnings
      = length (deck_pictures (prs_slides gallery_deck)).
Proof.
  split; [reflexivity|].
  eexists. split_and!; [reflexivity|reflexivity|].
  apply (pictures_are_accounted_for (FS:=MemFS) "gallery.pptx" "out"
           (start gallery_fs)
           (extract_pptx_data "gallery.pptx" (Some "out") (start gallery_fs)).1
           gallery_deck).
  - reflexivity.
  - reflexivity.
  - vm_compute. reflexivity.
  - reflexivity.
Defined.

(** X12, witness: the deck of the scenario, which has no properties. *)
Lemma metadata_fields_witness :
  dict_get "metadata" scenario_result = Some scenario_metadata ∧
  ∃ metadata,
    dict_get "metadata" scenario_result = Some metadata ∧
    dict_keys metadata
    = ["title"; "author"; "subject"; "created"; "modified"; "slide_count";
       "slide_width"; "slide_height"] ∧
    dict_get "slide_count" metadata = dict_get "total_slides" scenario_result ∧
    dict_get "slide_count" metadata = Some (VInt 2) ∧
    dict_get "title" metadata = Some (VStr "") ∧
    dict_get "author" metadata = Some (VStr "") ∧
    dict_get "subject" metadata = Some (VStr "") ∧
    dict_get "created" metadata = Some (VStr "") ∧
    dict_get "modified" metadata = Some (VStr "") ∧
    dict_get "slide_width" metadata = Some (VInt 9144000) ∧
    dict_get "slide_height" metadata = Some (VInt 6858000).
Proof.
  split; [reflexivity|].
  apply (metadata_fields (FS:=MemFS) "deck.pptx" None (start scenario_fs)
           (start scenario_fs) scenario_deck scenario_result).
  - reflexivity.
  - left. vm_compute. reflexivity.
  - reflexivity.
Defined.

(** The two command lines on the deck of the scenario: the text-only
    script refuses an output directory; the other one prints the failure
    for a path that does not exist and still exits with status 0. *)
Example command_lines :
  (main_text_only ["extract_pptx.py"; "deck.pptx"; "out"] (start scenario_fs)).2
  = mkProcess (Some (VDict [("success", VBool false);
                            ("error", VStr usage_text_only)])) 1 ∧
  exit_status
    (main_with_images ["extract_pptx_with_images.py"; "missing.pptx"]
       (start scenario_fs)).2 = 0 ∧
  printed
    (main_with_images ["extract_pptx_with_images.py"; "missing.pptx"]
       (start scenario_fs)).2
  = Some (VDict [("success", VBool false);
                 ("error",
                  VStr "Error extracting PPTX: Package not found at 'missing.pptx'")]) ∧
  (main_with_images ["extract_pptx_with_images.py"] (start scenario_fs)).2
  = mkProcess (Some (VDict [("success", VBool false);
                            ("error", VStr usage_with_images)])) 1.
Proof. split_and!; vm_compute; reflexivity. Qed.

End MoreRuns.
